(** * Access control of addons-server: [olympia/access/acl.py]

    A shallow embedding of the rule matcher [match_rules], of the capability
    resolver [action_allowed_user] and of the policy predicates built on
    them, together with the properties of the specification that concern
    them.

    Python strings are modelled as [string] (the separators [','] and [':']
    and the wildcards ['*'] and ['%'] are single characters), Python
    exceptions as the [Raise] outcome of the [result] monad, dictionaries as
    [gmap string pyval], and the constants of [olympia.amo] and of
    [django.conf.settings], which the module only imports, as the fields of
    two records the functions are parameterised by. *)

From stdpp Require Import base option list strings gmap.
From Stdlib Require Import ZArith.
From Stdlib Require Import Ascii.

Local Open Scope Z_scope.

(** Equality tests on characters and strings ([==] on [str]). *)
Abbreviation ascii_eqb := Stdlib.Strings.Ascii.eqb.
Abbreviation str_eqb := Stdlib.Strings.String.eqb.
Abbreviation str_len := Stdlib.Strings.String.length.

(** ** Python outcomes *)

(** The exceptions the module can raise by itself. *)
Inductive exn : Type :=
  | ValueError_not_enough_values (expected got : nat)
  | ValueError_too_many_values (expected : nat)
  | AssertionError
  | AttributeError (attr : string)
  | TypeError.

(** A call either returns a value or raises. *)
Inductive result (A : Type) : Type :=
  | Ok (a : A)
  | Raise (e : exn).
Arguments Ok {A} a.
Arguments Raise {A} e.

#[global] Instance result_ret : MRet result := fun _ a => Ok a.
#[global] Instance result_bind : MBind result := fun _ _ f r =>
  match r with
  | Ok a => f a
  | Raise e => Raise e
  end.

Definition is_raise {A} (r : result A) : bool :=
  match r with
  | Ok _ => false
  | Raise _ => true
  end.

#[global] Instance exn_eq_dec : EqDecision exn.
Proof. solve_decision. Defined.

#[global] Instance result_eq_dec `{EqDecision A} : EqDecision (result A).
Proof. solve_decision. Defined.

(** ** [str.split] with a one-character separator *)

Module Py.

(** [s.split(sep)]: the fields between the occurrences of [sep]; the result
    is never empty, [''.split(sep)] is [['']]. *)
Fixpoint split (sep : ascii) (s : string) : list string :=
  match s with
  | EmptyString => [""]
  | String c s' =>
      if ascii_eqb c sep then "" :: split sep s'
      else match split sep s' with
           | [] => [String c ""]
           | field :: fields => String c field :: fields
           end
  end.

(** Number of occurrences of a character. *)
Fixpoint count (c : ascii) (s : string) : nat :=
  match s with
  | EmptyString => O
  | String c' s' => (if ascii_eqb c' c then 1 else 0)%nat + count c s'
  end.

(** [a, b = xs]: unpacking a list into exactly two targets. *)
Definition unpack2 {A} (xs : list A) : result (A * A) :=
  match xs with
  | [a; b] => Ok (a, b)
  | [] | [_] => Raise (ValueError_not_enough_values 2 (length xs))
  | _ => Raise (ValueError_too_many_values 2)
  end.

(** [any(f(x) for x in xs)]: the generator is consumed up to the first true
    element; an exception raised by an element propagates. *)
Fixpoint any {A} (f : A → result bool) (xs : list A) : result bool :=
  match xs with
  | [] => Ok false
  | x :: xs' => b ← f x; if b : bool then Ok true else any f xs'
  end.

(** ASCII lower-casing of a character and of a string ([str.lower]). *)
Definition lower_ascii (c : ascii) : ascii :=
  let n := nat_of_ascii c in
  if ((65 <=? n) && (n <=? 90))%nat then ascii_of_nat (n + 32) else c.

Fixpoint lower (s : string) : string :=
  match s with
  | EmptyString => EmptyString
  | String c s' => String (lower_ascii c) (lower s')
  end.

(** [s.endswith(suffix)] and its tuple form [s.endswith((x, y, ...))]. *)
Fixpoint startswith (s p : string) : bool :=
  match p, s with
  | EmptyString, _ => true
  | String _ _, EmptyString => false
  | String c p', String d s' => ascii_eqb c d && startswith s' p'
  end.

Fixpoint endswith (s suffix : string) : bool :=
  startswith s suffix && Nat.eqb (str_len s) (str_len suffix)
  || match s with
     | EmptyString => false
     | String _ s' => endswith s' suffix
     end.

Definition endswith_any (s : string) (suffixes : list string) : bool :=
  existsb (endswith s) suffixes.

End Py.

(** ** The rule matcher *)

(** The body of the [for] loop of [match_rules], over the rules still to be
    visited. *)
Fixpoint match_rules_loop (rules : list string) (app action : string)
  : result bool :=
  match rules with
  | [] => Ok false
  | rule :: rest =>
      '(rule_app, rule_action) ← Py.unpack2 (Py.split ":" rule);
      if str_eqb rule_app "*" || str_eqb rule_app app then
        if str_eqb rule_action "*" || str_eqb rule_action action
           || str_eqb action "%"
        then Ok true
        else match_rules_loop rest app action
      else match_rules_loop rest app action
  end.

Definition match_rules (rules app action : string) : result bool :=
  match_rules_loop (Py.split "," rules) app action.

(** What the specification says of one rule [rule_app:rule_action] and a
    requested permission [(app, action)]. *)
Definition grants (rule_app rule_action app action : string) : Prop :=
  (rule_app = "*" ∨ rule_app = app)
  ∧ (rule_action = "*" ∨ rule_action = action ∨ action = "%").

(** ** Data the module reads *)

(** A permission constant of [constants.permissions]: the named tuple
    [AclPermission(app, action)]. *)
Record AclPermission : Type := { app : string; action : string }.

#[global] Instance AclPermission_eq_dec : EqDecision AclPermission.
Proof. solve_decision. Defined.

Record Group : Type := { rules : string }.

Record UserProfile : Type := {
  is_authenticated : bool;
  id : Z;
  groups_list : list Group
}.

Record Request : Type := { user : UserProfile }.

(** The values a parsed add-on dictionary holds. *)
Inductive pyval : Type :=
  | PyNone
  | PyBool (b : bool)
  | PyInt (n : Z)
  | PyStr (s : string).

#[global] Instance pyval_eq_dec : EqDecision pyval.
Proof. solve_decision. Defined.

(** Truth value of an object ([bool(v)]). *)
Definition truthy (v : pyval) : bool :=
  match v with
  | PyNone => false
  | PyBool b => b
  | PyInt n => negb (n =? 0)
  | PyStr s => negb (str_eqb s "")
  end.

(** [v == n] for an integer constant [n]; [bool] is a subclass of [int]. *)
Definition eq_int (v : pyval) (n : Z) : bool :=
  match v with
  | PyInt m => m =? n
  | PyBool b => (if b then 1 else 0) =? n
  | PyNone | PyStr _ => false
  end.

(** [d.get(key, default)] and [d.get(key)]. *)
Definition dict_get (d : gmap string pyval) (key : string) (dflt : pyval)
  : pyval := default dflt (d !! key).

(** [v.lower()]: only strings have the method. *)
Definition lower_method (v : pyval) : result string :=
  match v with
  | PyStr s => Ok (Py.lower s)
  | _ => Raise (AttributeError "lower")
  end.

(** [a or b] and [a and b] on an already computed truth value [a] and a
    right operand that is evaluated only when needed. *)
Definition or_else (a : bool) (b : result bool) : result bool :=
  if a then Ok true else b.

Definition and_then (a : bool) (b : result bool) : result bool :=
  if a then b else Ok false.

(** The constants of [olympia.amo] the module refers to; their values are
    defined in [olympia/constants], outside this module. *)
Record AmoConstants : Type := {
  PERMISSIONS_LIST : list AclPermission;
  ADDONS_EDIT : AclPermission;
  ADMIN_CURATION : AclPermission;
  COLLECTIONS_CONTRIBUTE : AclPermission;
  EXPERIMENTS_SUBMIT : AclPermission;
  LANGPACK_SUBMIT : AclPermission;
  SYSTEM_ADDON_SUBMIT : AclPermission;
  ADDON_LPAPP : Z;
  RESERVED_ADDON_GUIDS : list string;
  STATUS_DISABLED : Z;
  AUTHOR_ROLE_OWNER : Z;
  AUTHOR_ROLE_DEV : Z
}.

(** The two values read from [django.conf.settings]. *)
Record Settings : Type := {
  TASK_USER_ID : Z;
  COLLECTION_FEATURED_THEMES_ID : Z
}.

Record Collection : Type := { author_id : Z; pk : Z }.

(** A row of [addon.addonuser_set]: the author and the role they hold. *)
Record AddonUser : Type := { addonuser_user : Z; role : Z }.

Record Addon : Type := {
  is_deleted : bool;
  status : Z;
  addonuser_set : list AddonUser
}.

(** An arbitrary object handed to [check_ownership]: all that matters is
    whether it has a [check_ownership] method, and what the method returns. *)
Record PyObject : Type := {
  check_ownership_attr :
    option (Request → bool → bool → bool → bool → result pyval)
}.

(** ** The capability resolver and the policy predicates *)

Section Acl.

Variable amo : AmoConstants.
Variable settings : Settings.

(** Assertions are taken as enabled (the interpreter is not run with -O). *)
Definition action_allowed_user (user : UserProfile) (permission : AclPermission)
  : result bool :=
  if negb (is_authenticated user) then Ok false
  else if negb (bool_decide (permission ∈ PERMISSIONS_LIST amo))
  then Raise AssertionError
  else Py.any (λ group, match_rules (rules group) (app permission)
                                    (action permission))
              (groups_list user).

Definition action_allowed (request : Request) (permission : AclPermission)
  : result bool :=
  action_allowed_user (user request) permission.

Definition experiments_submission_allowed (user : UserProfile)
    (parsed_addon_data : gmap string pyval) : result bool :=
  or_else (negb (truthy (dict_get parsed_addon_data "is_experiment"
                                  (PyBool false))))
          (action_allowed_user user (EXPERIMENTS_SUBMIT amo)).

Definition langpack_submission_allowed (user : UserProfile)
    (parsed_addon_data : gmap string pyval) : result bool :=
  or_else (negb (eq_int (dict_get parsed_addon_data "type" PyNone)
                        (ADDON_LPAPP amo)))
          (action_allowed_user user (LANGPACK_SUBMIT amo)).

Definition reserved_guid_addon_submission_allowed (user : UserProfile)
    (parsed_addon_data : gmap string pyval) : result bool :=
  let guid :=
    let v := dict_get parsed_addon_data "guid" PyNone in
    if truthy v then v else PyStr "" in
  lowered ← lower_method guid;
  or_else (negb (Py.endswith_any lowered (RESERVED_ADDON_GUIDS amo)))
          (action_allowed_user user (SYSTEM_ADDON_SUBMIT amo)).

Definition mozilla_signed_extension_submission_allowed (user : UserProfile)
    (parsed_addon_data : gmap string pyval) : result bool :=
  or_else (negb (truthy (dict_get parsed_addon_data
                                  "is_mozilla_signed_extension" PyNone)))
          (action_allowed_user user (SYSTEM_ADDON_SUBMIT amo)).

Definition check_ownership (request : Request) (obj : PyObject)
    (require_owner require_author ignore_disabled admin : bool)
  : result pyval :=
  match check_ownership_attr obj with
  | Some method =>
      method request require_owner require_author ignore_disabled admin
  | None => Ok (PyBool false)
  end.

Definition check_collection_ownership (request : Request)
    (collection : Collection) (require_owner : bool) : result bool :=
  if negb (is_authenticated (user request)) then Ok false
  else if id (user request) =? author_id collection then Ok true
  else
    curator ← and_then (author_id collection =? TASK_USER_ID settings)
                 (action_allowed_user (user request) (ADMIN_CURATION amo));
    if curator : bool then Ok true
    else if negb require_owner then
      and_then (pk collection =? COLLECTION_FEATURED_THEMES_ID settings)
        (action_allowed_user (user request) (COLLECTIONS_CONTRIBUTE amo))
    else Ok false.

(** [addon.addonuser_set.filter(user=..., role__in=roles).exists()] *)
Definition addonuser_exists (addon : Addon) (u : UserProfile)
    (roles : list Z) : bool :=
  existsb (λ au, (addonuser_user au =? id u)
                 && bool_decide (role au ∈ roles))
          (addonuser_set addon).

Definition check_addon_ownership (request : Request) (addon : Addon)
    (dev admin ignore_disabled : bool) : result bool :=
  if negb (is_authenticated (user request)) then Ok false
  else if is_deleted addon then Ok false
  else
    editor ← and_then admin (action_allowed request (ADDONS_EDIT amo));
    if editor : bool then Ok true
    else if (status addon =? STATUS_DISABLED amo) && negb ignore_disabled
    then Ok false
    else
      let roles := [AUTHOR_ROLE_OWNER amo] in
      let roles := if dev then roles ++ [AUTHOR_ROLE_DEV amo] else roles in
      Ok (addonuser_exists addon (user request) roles).

End Acl.

(** ** Sample data

    One instantiation of the imported constants and a few principals and
    resources, on which the theorems below are exercised. *)

Module Sample.

Definition amo : AmoConstants := {|
  PERMISSIONS_LIST :=
    [ {| app := "Addons"; action := "Edit" |};
      {| app := "Admin"; action := "Curation" |};
      {| app := "Collections"; action := "Contribute" |};
      {| app := "Experiments"; action := "submit" |};
      {| app := "LanguagePack"; action := "Submit" |};
      {| app := "SystemAddon"; action := "Submit" |} ];
  ADDONS_EDIT := {| app := "Addons"; action := "Edit" |};
  ADMIN_CURATION := {| app := "Admin"; action := "Curation" |};
  COLLECTIONS_CONTRIBUTE := {| app := "Collections"; action := "Contribute" |};
  EXPERIMENTS_SUBMIT := {| app := "Experiments"; action := "submit" |};
  LANGPACK_SUBMIT := {| app := "LanguagePack"; action := "Submit" |};
  SYSTEM_ADDON_SUBMIT := {| app := "SystemAddon"; action := "Submit" |};
  ADDON_LPAPP := 5;
  RESERVED_ADDON_GUIDS := ["@mozilla.com"; "@mozilla.org"];
  STATUS_DISABLED := 5;
  AUTHOR_ROLE_OWNER := 5;
  AUTHOR_ROLE_DEV := 4
|}.

Definition settings : Settings := {|
  TASK_USER_ID := 4757633;
  COLLECTION_FEATURED_THEMES_ID := 2143965
|}.

(** A permission that is not one of the constants. *)
Definition unknown_permission : AclPermission :=
  {| app := "Addons"; action := "Frobnicate" |}.

(** An anonymous principal, given a group that would grant everything. *)
Definition anonymous : UserProfile :=
  {| is_authenticated := false; id := 0;
     groups_list := [ {| rules := "*:*" |} ] |}.

Definition editor : UserProfile :=
  {| is_authenticated := true; id := 1;
     groups_list := [ {| rules := "Stats:View" |};
                      {| rules := "Reviews:Edit,Addons:Edit" |} ] |}.

Definition developer : UserProfile :=
  {| is_authenticated := true; id := 2;
     groups_list := [ {| rules := "Stats:View" |} ] |}.

Definition contributor : UserProfile :=
  {| is_authenticated := true; id := 3;
     groups_list := [ {| rules := "Collections:Contribute" |} ] |}.

(** A principal one of whose groups has a rule without [':'], followed by
    a group that grants everything. *)
Definition misconfigured : UserProfile :=
  {| is_authenticated := true; id := 4;
     groups_list := [ {| rules := "Admin" |}; {| rules := "*:*" |} ] |}.

(** An add-on disabled by an admin, owned by [developer]. *)
Definition disabled_addon : Addon :=
  {| is_deleted := false; status := 5;
     addonuser_set := [ {| addonuser_user := 2; role := 5 |} ] |}.

Definition deleted_addon : Addon :=
  {| is_deleted := true; status := 11;
     addonuser_set := [ {| addonuser_user := 2; role := 5 |} ] |}.

(** The featured-themes collection, authored by somebody else. *)
Definition featured_themes : Collection :=
  {| author_id := 9; pk := 2143965 |}.

Definition plain_object : PyObject := {| check_ownership_attr := None |}.

Definition owned_object : PyObject :=
  {| check_ownership_attr :=
       Some (λ request require_owner require_author ignore_disabled admin,
               Ok (PyBool (admin && negb require_owner))) |}.

End Sample.

(** ** The reviewer predicates *)

(** The reviewer permissions of [constants.permissions] and the add-on type
    of static themes, defined outside this module like the constants
    above. *)
Record AmoReviewerConstants : Type := {
  ADDONS_REVIEW : AclPermission;
  ADDONS_RECOMMENDED_REVIEW : AclPermission;
  ADDONS_CONTENT_REVIEW : AclPermission;
  ADDONS_REVIEW_UNLISTED : AclPermission;
  REVIEWER_TOOLS_VIEW : AclPermission;
  REVIEWER_TOOLS_UNLISTED_VIEW : AclPermission;
  STATIC_THEMES_REVIEW : AclPermission;
  ADDON_STATICTHEME : Z
}.

(** The add-on as [is_reviewer] reads it: only its [type]. *)
Record TypedAddon : Type := { type : Z }.

(** A rule set all of whose rules unpack: each has exactly one [':']. *)
Definition well_formed_rules (rule_set : string) : Prop :=
  Forall (λ rule, Py.count ":" rule = 1%nat) (Py.split "," rule_set).

(** [sep.join(xs)] for the separator [','], used to state how the rule sets
    of several groups combine. *)
Fixpoint join_rules (rule_sets : list string) : string :=
  match rule_sets with
  | [] => ""
  | [rule_set] => rule_set
  | rule_set :: rest => rule_set +:+ "," +:+ join_rules rest
  end.

Section Reviewers.

Variable amo : AmoConstants.
Variable amo_reviewers : AmoReviewerConstants.

Definition check_listed_addons_reviewer (request : Request)
    (allow_content_reviewers : bool) : result bool :=
  let permissions :=
    [ADDONS_REVIEW amo_reviewers; ADDONS_RECOMMENDED_REVIEW amo_reviewers] in
  let permissions :=
    if allow_content_reviewers
    then permissions ++ [ADDONS_CONTENT_REVIEW amo_reviewers]
    else permissions in
  Py.any (λ perm, action_allowed amo request perm) permissions.

Definition check_listed_addons_viewer_or_reviewer (request : Request)
    (allow_content_reviewers : bool) : result bool :=
  viewer ← action_allowed amo request (REVIEWER_TOOLS_VIEW amo_reviewers);
  or_else viewer (check_listed_addons_reviewer request allow_content_reviewers).

Definition check_unlisted_addons_reviewer (request : Request) : result bool :=
  action_allowed amo request (ADDONS_REVIEW_UNLISTED amo_reviewers).

Definition check_unlisted_addons_viewer_or_reviewer (request : Request)
  : result bool :=
  viewer ← action_allowed amo request
             (REVIEWER_TOOLS_UNLISTED_VIEW amo_reviewers);
  or_else viewer (check_unlisted_addons_reviewer request).

Definition check_static_theme_reviewer (request : Request) : result bool :=
  action_allowed amo request (STATIC_THEMES_REVIEW amo_reviewers).

Definition is_reviewer (request : Request) (addon : TypedAddon)
    (allow_content_reviewers : bool) : result bool :=
  if type addon =? ADDON_STATICTHEME amo_reviewers
  then check_static_theme_reviewer request
  else check_listed_addons_reviewer request allow_content_reviewers.

Definition is_user_any_kind_of_reviewer (user : UserProfile)
    (allow_viewers : bool) : result bool :=
  let permissions :=
    [ADDONS_REVIEW amo_reviewers;
     ADDONS_REVIEW_UNLISTED amo_reviewers;
     ADDONS_CONTENT_REVIEW amo_reviewers;
     ADDONS_RECOMMENDED_REVIEW amo_reviewers;
     STATIC_THEMES_REVIEW amo_reviewers] in
  let permissions :=
    if allow_viewers
    then permissions ++ [REVIEWER_TOOLS_VIEW amo_reviewers;
                         REVIEWER_TOOLS_UNLISTED_VIEW amo_reviewers]
    else permissions in
  Py.any (λ perm, action_allowed_user amo user perm) permissions.

End Reviewers.

(** Sample reviewer constants and principals. *)
Module SampleReviewers.

Definition amo_reviewers : AmoReviewerConstants := {|
  ADDONS_REVIEW := {| app := "Addons"; action := "Review" |};
  ADDONS_RECOMMENDED_REVIEW :=
    {| app := "Addons"; action := "RecommendedReview" |};
  ADDONS_CONTENT_REVIEW := {| app := "Addons"; action := "ContentReview" |};
  ADDONS_REVIEW_UNLISTED := {| app := "Addons"; action := "ReviewUnlisted" |};
  REVIEWER_TOOLS_VIEW := {| app := "ReviewerTools"; action := "View" |};
  REVIEWER_TOOLS_UNLISTED_VIEW :=
    {| app := "ReviewerTools"; action := "ViewUnlisted" |};
  STATIC_THEMES_REVIEW := {| app := "Addons"; action := "ThemeReview" |};
  ADDON_STATICTHEME := 10
|}.

(** The constants of [Sample.amo] with the reviewer permissions added to
    the enumeration. *)
Definition amo : AmoConstants := {|
  PERMISSIONS_LIST :=
    PERMISSIONS_LIST Sample.amo
    ++ [ ADDONS_REVIEW amo_reviewers;
         ADDONS_RECOMMENDED_REVIEW amo_reviewers;
         ADDONS_CONTENT_REVIEW amo_reviewers;
         ADDONS_REVIEW_UNLISTED amo_reviewers;
         REVIEWER_TOOLS_VIEW amo_reviewers;
         REVIEWER_TOOLS_UNLISTED_VIEW amo_reviewers;
         STATIC_THEMES_REVIEW amo_reviewers ];
  ADDONS_EDIT := ADDONS_EDIT Sample.amo;
  ADMIN_CURATION := ADMIN_CURATION Sample.amo;
  COLLECTIONS_CONTRIBUTE := COLLECTIONS_CONTRIBUTE Sample.amo;
  EXPERIMENTS_SUBMIT := EXPERIMENTS_SUBMIT Sample.amo;
  LANGPACK_SUBMIT := LANGPACK_SUBMIT Sample.amo;
  SYSTEM_ADDON_SUBMIT := SYSTEM_ADDON_SUBMIT Sample.amo;
  ADDON_LPAPP := 5;
  RESERVED_ADDON_GUIDS := RESERVED_ADDON_GUIDS Sample.amo;
  STATUS_DISABLED := 5;
  AUTHOR_ROLE_OWNER := 5;
  AUTHOR_ROLE_DEV := 4
|}.

Definition reviewer : UserProfile :=
  {| is_authenticated := true; id := 9;
     groups_list := [ {| rules := "Addons:Review" |} ] |}.

Definition content_reviewer : UserProfile :=
  {| is_authenticated := true; id := 5;
     groups_list := [ {| rules := "Addons:ContentReview" |} ] |}.

Definition theme_reviewer : UserProfile :=
  {| is_authenticated := true; id := 6;
     groups_list := [ {| rules := "Stats:View,Addons:ThemeReview" |} ] |}.

Definition viewer : UserProfile :=
  {| is_authenticated := true; id := 7;
     groups_list := [ {| rules := "ReviewerTools:View" |} ] |}.

Definition static_theme : TypedAddon := {| type := 10 |}.
Definition extension : TypedAddon := {| type := 1 |}.

End SampleReviewers.

(** [s.isascii()]: on such strings [str.lower] changes the letters [A-Z]
    only, as [Py.lower] does. *)
Fixpoint isascii (s : string) : bool :=
  match s with
  | EmptyString => true
  | String c s' => (nat_of_ascii c <? 128)%nat && isascii s'
  end.

(** A principal all of whose groups have well-formed rule sets. *)
Definition well_formed_user (u : UserProfile) : Prop :=
  Forall (λ group, well_formed_rules (rules group)) (groups_list u).

(** * Properties *)

(** ** Facts about [split] *)

Lemma ascii_eqb_eq (c d : ascii) : ascii_eqb c d = true ↔ c = d.
Proof. apply Stdlib.Strings.Ascii.eqb_eq. Qed.

Lemma str_eqb_eq (s t : string) : str_eqb s t = true ↔ s = t.
Proof. apply Stdlib.Strings.String.eqb_eq. Qed.

Lemma split_not_nil sep s : Py.split sep s ≠ [].
Proof.
  destruct s as [|c s]; simpl; [done|].
  destruct (ascii_eqb c sep); [done|]. by destruct (Py.split sep s).
Qed.

(** Splitting yields one field more than there are separators: a rule is
    cut at every [':'], not only at the first. *)
Lemma split_length sep s : length (Py.split sep s) = S (Py.count sep s).
Proof.
  induction s as [|c s IH]; simpl; [done|].
  destruct (ascii_eqb c sep); simpl; [by rewrite IH|].
  destruct (Py.split sep s); simpl in *; done.
Qed.

Lemma count_app sep s t :
  Py.count sep (s +:+ t) = (Py.count sep s + Py.count sep t)%nat.
Proof. induction s as [|c s IH]; simpl; [done|]. rewrite IH. lia. Qed.

Lemma split_no_sep sep s : Py.count sep s = 0%nat → Py.split sep s = [s].
Proof.
  induction s as [|c s IH]; simpl; [done|].
  destruct (ascii_eqb c sep); simpl; [done|].
  intros H. by rewrite IH.
Qed.

Lemma split_app_sep sep d a :
  Py.count sep d = 0%nat →
  Py.split sep (d +:+ String sep a) = d :: Py.split sep a.
Proof.
  induction d as [|c d IH]; simpl.
  - intros _. by rewrite (proj2 (ascii_eqb_eq sep sep) eq_refl).
  - destruct (ascii_eqb c sep); simpl; [done|].
    intros H. by rewrite IH.
Qed.

(** A string with exactly one separator splits into the text before it and
    the text after it. *)
Lemma split_one_sep sep s :
  Py.count sep s = 1%nat →
  ∃ d a, Py.split sep s = [d; a] ∧ s = d +:+ String sep a.
Proof.
  induction s as [|c s IH]; simpl; [done|].
  destruct (ascii_eqb c sep) eqn:Hc; simpl.
  - intros H. apply ascii_eqb_eq in Hc as ->.
    exists "", s. rewrite split_no_sep by lia. done.
  - intros H. destruct (IH H) as (d & a & -> & ->).
    by exists (String c d), a.
Qed.

Lemma split_pair_inv sep d a d' a' :
  Py.count sep (d +:+ String sep a) = 1%nat →
  Py.split sep (d +:+ String sep a) = [d'; a'] → d' = d ∧ a' = a.
Proof.
  rewrite count_app. simpl. rewrite (proj2 (ascii_eqb_eq sep sep) eq_refl).
  intros H. rewrite split_app_sep, split_no_sep by lia. by intros [= -> ->].
Qed.

(** ** The rule matcher *)

Lemma grants_test rule_app rule_action app action :
  (str_eqb rule_app "*" || str_eqb rule_app app)
  && (str_eqb rule_action "*" || str_eqb rule_action action
      || str_eqb action "%") = true
  ↔ grants rule_app rule_action app action.
Proof.
  unfold grants.
  rewrite andb_true_iff, !orb_true_iff, !str_eqb_eq. tauto.
Qed.

(** One turn of the loop on a rule that unpacks into two fields. *)
Lemma match_rules_loop_pair rule rest app action d a :
  Py.split ":" rule = [d; a] →
  match_rules_loop (rule :: rest) app action =
    if (str_eqb d "*" || str_eqb d app)
       && (str_eqb a "*" || str_eqb a action || str_eqb action "%")
    then Ok true else match_rules_loop rest app action.
Proof.
  intros H. simpl. rewrite H. simpl.
  destruct (str_eqb d "*" || str_eqb d app); simpl; [|done].
  by destruct (str_eqb a "*" || str_eqb a action || str_eqb action "%").
Qed.

(** One turn of the loop on a rule that does not unpack into two fields. *)
Lemma match_rules_loop_malformed rule rest app action :
  length (Py.split ":" rule) ≠ 2%nat →
  ∃ e, match_rules_loop (rule :: rest) app action = Raise e.
Proof.
  intros H. simpl.
  destruct (Py.split ":" rule) as [|x [|y [|z l]]]; simpl in *;
    try done; eauto.
Qed.

Lemma match_rules_loop_well_formed rules app action :
  Forall (λ rule, Py.count ":" rule = 1%nat) rules →
  ∃ b, match_rules_loop rules app action = Ok b
       ∧ (b = true ↔
          ∃ d a, (d +:+ ":" +:+ a) ∈ rules ∧ grants d a app action).
Proof.
  induction 1 as [|rule rest Hone _ IH].
  - exists false. split; [done|]. split; [done|].
    intros (d & a & Hin & _). by apply elem_of_nil in Hin.
  - destruct (split_one_sep _ _ Hone) as (d & a & Hsplit & Hrule).
    rewrite (match_rules_loop_pair _ _ _ _ _ _ Hsplit).
    destruct ((str_eqb d "*" || str_eqb d app) && _) eqn:Htest.
    + exists true. split; [done|]. split; [|done]. intros _.
      exists d, a. split; [subst rule; apply elem_of_cons; by left|].
      by apply grants_test.
    + destruct IH as (b & Hloop & Hb). exists b. split; [done|].
      rewrite Hb. split.
      * intros (d' & a' & Hin & Hg). exists d', a'.
        split; [apply elem_of_cons; by right|done].
      * intros (d' & a' & Hin & Hg). exists d', a'. split; [|done].
        apply elem_of_cons in Hin as [Heq|Hin]; [|done].
        exfalso. rewrite <- Heq in Hone, Hsplit.
        destruct (split_pair_inv ":" d' a' d a Hone Hsplit) as [-> ->].
        apply grants_test in Hg. congruence.
Qed.

(** The scan raises at the first malformed rule unless a rule before it
    grants the permission. *)
Lemma match_rules_loop_raises pre rule post app action :
  length (Py.split ":" rule) ≠ 2%nat →
  (∀ d a, (d +:+ ":" +:+ a) ∈ pre → ¬ grants d a app action) →
  ∃ e, match_rules_loop (pre ++ rule :: post) app action = Raise e.
Proof.
  intros Hbad. induction pre as [|p pre IH]; intros Hpre.
  - by apply match_rules_loop_malformed.
  - destruct (decide (length (Py.split ":" p) = 2%nat)) as [Hp|Hp].
    + destruct (Py.split ":" p) as [|d [|a [|z l]]] eqn:Hsplit; try done.
      assert (Py.count ":" p = 1%nat) as Hone.
      { pose proof (split_length ":" p) as Hl. rewrite Hsplit in Hl.
        simpl in Hl. lia. }
      destruct (split_one_sep _ _ Hone) as (d' & a' & Hsplit' & Hrule).
      rewrite Hsplit in Hsplit'. injection Hsplit' as -> ->.
      change ((p :: pre) ++ rule :: post) with (p :: pre ++ rule :: post).
      rewrite (match_rules_loop_pair _ _ _ _ _ _ Hsplit).
      destruct ((str_eqb d' "*" || str_eqb d' app) && _) eqn:Htest.
      * exfalso. apply (Hpre d' a'); [|by apply grants_test].
        rewrite Hrule. apply elem_of_cons; by left.
      * apply IH. intros d a Hin. apply Hpre. apply elem_of_cons. by right.
    + by apply match_rules_loop_malformed.
Qed.

(** Well-formed rules that do not grant the permission are passed over. *)
Lemma match_rules_loop_skips pre rest app action :
  Forall (λ rule, Py.count ":" rule = 1%nat) pre →
  (∀ d a, (d +:+ ":" +:+ a) ∈ pre → ¬ grants d a app action) →
  match_rules_loop (pre ++ rest) app action = match_rules_loop rest app action.
Proof.
  induction 1 as [|p pre Hone _ IH]; intros Hpre; [done|].
  destruct (split_one_sep _ _ Hone) as (d & a & Hsplit & Hrule).
  change ((p :: pre) ++ rest) with (p :: pre ++ rest).
  rewrite (match_rules_loop_pair _ _ _ _ _ _ Hsplit).
  destruct ((str_eqb d "*" || str_eqb d app) && _) eqn:Htest.
  - exfalso. apply (Hpre d a); [|by apply grants_test].
    rewrite Hrule. apply elem_of_cons; by left.
  - apply IH. intros d' a' Hin. apply Hpre. apply elem_of_cons. by right.
Qed.

Lemma match_rules_loop_no_colon rule rest app action :
  Py.count ":" rule = 0%nat →
  match_rules_loop (rule :: rest) app action =
    Raise (ValueError_not_enough_values 2 1).
Proof. intros H. simpl. by rewrite split_no_sep. Qed.

Lemma match_rules_loop_extra_colon rule rest app action :
  (1 < Py.count ":" rule)%nat →
  match_rules_loop (rule :: rest) app action =
    Raise (ValueError_too_many_values 2).
Proof.
  intros H. pose proof (split_length ":" rule) as Hl. simpl.
  destruct (Py.split ":" rule) as [|x [|y [|z l]]]; simpl in *; done || lia.
Qed.

(** A single well-formed rule [d0:a0] reads as the pair [(d0, a0)] only. *)
Lemma single_rule_no_grant d0 a0 app action :
  Py.count ":" d0 = 0%nat → Py.count ":" a0 = 0%nat →
  ¬ grants d0 a0 app action →
  ∀ d a, (d +:+ ":" +:+ a) ∈ [d0 +:+ ":" +:+ a0] → ¬ grants d a app action.
Proof.
  intros Hd Ha Hno d a Hin. apply list_elem_of_singleton in Hin.
  destruct (split_pair_inv ":" d a d0 a0) as [<- <-]; [| |done].
  - change (d +:+ String ":" a) with (d +:+ ":" +:+ a). rewrite Hin.
    change (d0 +:+ ":" +:+ a0) with (d0 +:+ String ":" a0).
    rewrite count_app. simpl. lia.
  - change (d +:+ String ":" a) with (d +:+ ":" +:+ a). rewrite Hin.
    change (d0 +:+ ":" +:+ a0) with (d0 +:+ String ":" a0).
    by rewrite split_app_sep, split_no_sep.
Qed.

(** C1: on a rule set all of whose rules contain exactly one [':'] (such a
    rule set is not the empty string), [match_rules] returns a boolean, and
    it returns [True] if and only if some rule [d:a] of the set has
    [d] equal to ['*'] or to the requested app, and [a] equal to ['*'] or to
    the requested action, or the requested action is ['%']. *)
Theorem match_rules_well_formed_iff rules app action :
  Forall (λ rule, Py.count ":" rule = 1%nat) (Py.split "," rules) →
  ∃ b, match_rules rules app action = Ok b
       ∧ (b = true ↔
          ∃ d a, (d +:+ ":" +:+ a) ∈ Py.split "," rules
                 ∧ ((d = "*" ∨ d = app)
                    ∧ (a = "*" ∨ a = action ∨ action = "%"))).
Proof. apply match_rules_loop_well_formed. Qed.

Lemma match_rules_well_formed_iff_witness :
  ∃ b, match_rules "Editors:*,Addons:Edit" "Addons" "Edit" = Ok b
       ∧ (b = true ↔
          ∃ d a, (d +:+ ":" +:+ a) ∈ Py.split "," "Editors:*,Addons:Edit"
                 ∧ ((d = "*" ∨ d = "Addons")
                    ∧ (a = "*" ∨ a = "Edit" ∨ "Edit" = "%"))).
Proof.
  apply (match_rules_well_formed_iff "Editors:*,Addons:Edit" "Addons" "Edit").
  simpl. repeat constructor.
Defined.

(** C3, as the code has it: the empty string splits into the single rule
    [''], which has no [':'], so for every permission [match_rules] raises
    [ValueError] instead of returning [False]. *)
Theorem match_rules_empty_raises app action :
  match_rules "" app action = Raise (ValueError_not_enough_values 2 1).
Proof. reflexivity. Qed.

Lemma match_rules_empty_not_false :
  match_rules "" "Addons" "Edit" ≠ Ok false.
Proof. discriminate. Qed.

(** C7: when the rule set contains a rule without [':'] and no rule before
    it grants the requested permission, [match_rules] raises; it neither
    skips the rule nor returns a boolean. When the rules before it are all
    well formed the exception is the one of unpacking that very rule. *)
Theorem match_rules_missing_colon_raises rules app action pre rule post :
  Py.split "," rules = pre ++ rule :: post →
  Py.count ":" rule = 0%nat →
  (∀ d a, (d +:+ ":" +:+ a) ∈ pre → ¬ grants d a app action) →
  (∃ e, match_rules rules app action = Raise e)
  ∧ (Forall (λ p, Py.count ":" p = 1%nat) pre →
     match_rules rules app action = Raise (ValueError_not_enough_values 2 1)).
Proof.
  intros Hsplit Hrule Hpre. unfold match_rules. rewrite Hsplit. split.
  - apply match_rules_loop_raises; [|done].
    rewrite split_length, Hrule. done.
  - intros Hwf. rewrite match_rules_loop_skips by done.
    by apply match_rules_loop_no_colon.
Qed.

Lemma match_rules_missing_colon_raises_witness :
  (∃ e, match_rules "Addons:Review,Admin,*:*" "Addons" "Edit" = Raise e)
  ∧ (Forall (λ p, Py.count ":" p = 1%nat) ["Addons:Review"] →
     match_rules "Addons:Review,Admin,*:*" "Addons" "Edit"
     = Raise (ValueError_not_enough_values 2 1)).
Proof.
  apply (match_rules_missing_colon_raises
           "Addons:Review,Admin,*:*" "Addons" "Edit"
           ["Addons:Review"] "Admin" ["*:*"]).
  - reflexivity.
  - reflexivity.
  - apply (single_rule_no_grant "Addons" "Review"); [done|done|].
    intros [_ [Ha|[Ha|Ha]]]; discriminate Ha.
Defined.

(** C8, as the code has it: a rule is split at every [':'], so a rule with
    more than one [':'] yields more than two fields, and unless a rule
    before it grants the requested permission [match_rules] raises
    [ValueError] on it instead of matching on the text before and after the
    first [':']. *)
Theorem match_rules_extra_colon_raises rules app action pre rule post :
  Py.split "," rules = pre ++ rule :: post →
  (1 < Py.count ":" rule)%nat →
  (∀ d a, (d +:+ ":" +:+ a) ∈ pre → ¬ grants d a app action) →
  (2 < length (Py.split ":" rule))%nat
  ∧ (∃ e, match_rules rules app action = Raise e)
  ∧ (Forall (λ p, Py.count ":" p = 1%nat) pre →
     match_rules rules app action = Raise (ValueError_too_many_values 2)).
Proof.
  intros Hsplit Hrule Hpre. unfold match_rules. rewrite Hsplit.
  split; [rewrite split_length; lia|]. split.
  - apply match_rules_loop_raises; [|done]. rewrite split_length. lia.
  - intros Hwf. rewrite match_rules_loop_skips by done.
    by apply match_rules_loop_extra_colon.
Qed.

Lemma match_rules_extra_colon_raises_witness :
  (2 < length (Py.split ":" "a:b:c"))%nat
  ∧ (∃ e, match_rules "Reviews:Edit,a:b:c" "a" "b:c" = Raise e)
  ∧ (Forall (λ p, Py.count ":" p = 1%nat) ["Reviews:Edit"] →
     match_rules "Reviews:Edit,a:b:c" "a" "b:c"
     = Raise (ValueError_too_many_values 2)).
Proof.
  apply (match_rules_extra_colon_raises
           "Reviews:Edit,a:b:c" "a" "b:c" ["Reviews:Edit"] "a:b:c" []).
  - reflexivity.
  - simpl. lia.
  - apply (single_rule_no_grant "Reviews" "Edit"); [done|done|].
    intros [[Hd|Hd] _]; discriminate Hd.
Defined.

Lemma match_rules_first_colon_counterexample :
  match_rules "a:b:c" "a" "b:c" = Raise (ValueError_too_many_values 2)
  ∧ match_rules "a:b:c" "a" "b:c" ≠ Ok true.
Proof. split; [reflexivity|discriminate]. Qed.

(** The matcher on the rule strings of the test suite's kind. *)
Example match_rules_exact :
  match_rules "Addons:Edit" "Addons" "Edit" = Ok true.
Proof. reflexivity. Qed.

Example match_rules_other_app :
  match_rules "Addons:Edit" "Reviews" "Edit" = Ok false.
Proof. reflexivity. Qed.

Example match_rules_any_action_requested :
  match_rules "Addons:Edit" "Addons" "%" = Ok true.
Proof. reflexivity. Qed.

Example match_rules_universal_grant :
  match_rules "Stats:View,*:*" "Admin" "Curation" = Ok true.
Proof. reflexivity. Qed.

(** The scan stops at the first granting rule: a malformed rule after it is
    never unpacked. *)
Example match_rules_stops_at_first_grant :
  match_rules "*:*,Admin" "Addons" "Edit" = Ok true.
Proof. reflexivity. Qed.

(** ** The capability resolver *)

Lemma any_true_iff {A} (f : A → result bool) xs :
  Py.any f xs = Ok true ↔
  ∃ pre x post, xs = pre ++ x :: post ∧ f x = Ok true
                ∧ Forall (λ y, f y = Ok false) pre.
Proof.
  induction xs as [|x xs IH]; simpl.
  - split; [done|]. intros (pre & y & post & H & _). by destruct pre.
  - destruct (f x) as [[|]|e] eqn:Hx; simpl.
    + split; [|done]. intros _. by exists [], x, xs.
    + rewrite IH. split.
      * intros (pre & y & post & -> & Hy & Hpre).
        exists (x :: pre), y, post. by repeat split; [|constructor].
      * intros (pre & y & post & Heq & Hy & Hpre).
        destruct pre as [|z pre]; simpl in Heq; injection Heq as <- ->.
        -- congruence.
        -- apply Forall_cons in Hpre as [_ Hpre]. by exists pre, y, post.
    + split; [done|]. intros (pre & y & post & Heq & Hy & Hpre).
      destruct pre as [|z pre]; simpl in Heq; injection Heq as <- ->.
      * congruence.
      * apply Forall_cons in Hpre as [Hz _]. congruence.
Qed.

Lemma any_no_raise {A} (f : A → result bool) xs :
  (∀ x, x ∈ xs → is_raise (f x) = false) →
  ∃ b, Py.any f xs = Ok b ∧ (b = true ↔ ∃ x, x ∈ xs ∧ f x = Ok true).
Proof.
  induction xs as [|x xs IH]; intros Hok; simpl.
  - exists false. split; [done|]. split; [done|].
    intros (x & Hin & _). by apply elem_of_nil in Hin.
  - pose proof (Hok x ltac:(apply elem_of_cons; by left)) as Hx.
    destruct (f x) as [[|]|e] eqn:Hfx; simpl in *; [| |done].
    + exists true. split; [done|]. split; [|done]. intros _.
      exists x. split; [apply elem_of_cons; by left|done].
    + destruct IH as (b & Hany & Hb).
      { intros y Hy. apply Hok. apply elem_of_cons. by right. }
      exists b. split; [done|]. rewrite Hb. split.
      * intros (y & Hin & Hy). exists y.
        split; [apply elem_of_cons; by right|done].
      * intros (y & Hin & Hy). exists y. split; [|done].
        apply elem_of_cons in Hin as [->|Hin]; [congruence|done].
Qed.

Lemma action_allowed_user_anonymous amo user permission :
  is_authenticated user = false →
  action_allowed_user amo user permission = Ok false.
Proof. intros H. unfold action_allowed_user. by rewrite H. Qed.

Lemma action_allowed_user_scan amo user permission :
  is_authenticated user = true →
  permission ∈ PERMISSIONS_LIST amo →
  action_allowed_user amo user permission =
    Py.any (λ group, match_rules (rules group) (app permission)
                                 (action permission))
           (groups_list user).
Proof.
  intros Hauth Hin. unfold action_allowed_user.
  rewrite Hauth, bool_decide_eq_true_2 by done. done.
Qed.

(** C2, as the code has it: an unauthenticated user is denied whatever the
    groups and the permission are, also when scanning the groups would
    grant or raise. For an authenticated user and a permission of the
    enumeration the result is [True] if and only if some group of the list
    is accepted by [match_rules] and [match_rules] returns [False] on every
    group before it; when [match_rules] raises on no group of the list, this
    is: if and only if at least one group is accepted. *)
Theorem action_allowed_user_any_group amo user permission :
  (is_authenticated user = false →
   action_allowed_user amo user permission = Ok false)
  ∧ (is_authenticated user = true →
     permission ∈ PERMISSIONS_LIST amo →
     (action_allowed_user amo user permission = Ok true ↔
      ∃ pre group post,
        groups_list user = pre ++ group :: post
        ∧ match_rules (rules group) (app permission) (action permission)
          = Ok true
        ∧ Forall (λ g, match_rules (rules g) (app permission)
                                   (action permission) = Ok false) pre)
     ∧ ((∀ g, g ∈ groups_list user →
           is_raise (match_rules (rules g) (app permission)
                                 (action permission)) = false) →
        ∃ b, action_allowed_user amo user permission = Ok b
             ∧ (b = true ↔
                ∃ g, g ∈ groups_list user
                     ∧ match_rules (rules g) (app permission)
                                   (action permission) = Ok true))).
Proof.
  split; [apply action_allowed_user_anonymous|].
  intros Hauth Hin. rewrite action_allowed_user_scan by done. split.
  - apply any_true_iff.
  - apply any_no_raise.
Qed.

Lemma action_allowed_user_any_group_witness :
  action_allowed_user Sample.amo Sample.anonymous (ADDONS_EDIT Sample.amo)
  = Ok false
  ∧ action_allowed_user Sample.amo Sample.editor (ADDONS_EDIT Sample.amo)
    = Ok true.
Proof.
  split.
  - apply (action_allowed_user_any_group
             Sample.amo Sample.anonymous (ADDONS_EDIT Sample.amo)).
    reflexivity.
  - destruct (action_allowed_user_any_group
                Sample.amo Sample.editor (ADDONS_EDIT Sample.amo))
      as [_ Hauth].
    destruct Hauth as [Hiff _]; [reflexivity|by vm_compute; left|].
    apply Hiff.
    exists [ {| rules := "Stats:View" |} ],
           {| rules := "Reviews:Edit,Addons:Edit" |}, [].
    split; [reflexivity|]. split; [reflexivity|]. by repeat constructor.
Defined.

Lemma action_allowed_user_malformed_group_counterexample :
  is_authenticated Sample.misconfigured = true
  ∧ ADDONS_EDIT Sample.amo ∈ PERMISSIONS_LIST Sample.amo
  ∧ (∃ g, g ∈ groups_list Sample.misconfigured
          ∧ match_rules (rules g) "Addons" "Edit" = Ok true)
  ∧ action_allowed_user Sample.amo Sample.misconfigured
      (ADDONS_EDIT Sample.amo)
    = Raise (ValueError_not_enough_values 2 1).
Proof.
  split; [done|]. split; [by vm_compute; left|]. split; [|done].
  exists {| rules := "*:*" |}. split; [|done].
  apply elem_of_cons. right. apply elem_of_cons. by left.
Qed.

(** C5, as the code has it: for an authenticated user a permission outside
    the enumeration fails the assertion; for an unauthenticated user the
    check of authentication comes first and the call returns [False]. *)
Theorem action_allowed_user_unknown_permission amo user permission :
  permission ∉ PERMISSIONS_LIST amo →
  (is_authenticated user = true →
   action_allowed_user amo user permission = Raise AssertionError)
  ∧ (is_authenticated user = false →
     action_allowed_user amo user permission = Ok false).
Proof.
  intros Hout. split; intros Hauth; unfold action_allowed_user; rewrite Hauth.
  - by rewrite bool_decide_eq_false_2.
  - done.
Qed.

Lemma unknown_permission_outside :
  Sample.unknown_permission ∉ PERMISSIONS_LIST Sample.amo.
Proof. apply (bool_decide_unpack _). by vm_compute. Qed.

Lemma action_allowed_user_unknown_permission_witness :
  action_allowed_user Sample.amo Sample.editor Sample.unknown_permission
  = Raise AssertionError.
Proof.
  apply (action_allowed_user_unknown_permission
           Sample.amo Sample.editor Sample.unknown_permission).
  - apply unknown_permission_outside.
  - reflexivity.
Defined.

Lemma action_allowed_user_unknown_permission_anonymous :
  (Sample.unknown_permission ∉ PERMISSIONS_LIST Sample.amo)
  ∧ action_allowed_user Sample.amo Sample.anonymous Sample.unknown_permission
    = Ok false.
Proof. split; [apply unknown_permission_outside|reflexivity]. Qed.

(** ** The submission predicates *)

Lemma endswith_empty suffix : Py.endswith "" suffix = true ↔ suffix = "".
Proof. destruct suffix; simpl; split; done. Qed.

Lemma endswith_any_empty suffixes :
  "" ∉ suffixes → Py.endswith_any "" suffixes = false.
Proof.
  intros Hout. unfold Py.endswith_any.
  apply not_true_is_false. intros H.
  apply existsb_exists in H as (suffix & Hin & Hend).
  apply endswith_empty in Hend as ->. by apply Hout, list_elem_of_In.
Qed.

(** C6, as the code has it: each submission predicate reads its field with
    [dict.get], so when the field is absent a default stands in for it
    ([False] for [is_experiment], [None] for [type] and
    [is_mozilla_signed_extension], [''] for [guid]) and the predicate
    returns [True] without raising and without consulting the permissions
    of the user (for [guid], as long as no reserved suffix is empty). *)
Theorem submission_allowed_missing_field amo user
    (parsed_addon_data : gmap string pyval) :
  (parsed_addon_data !! "is_experiment" = None →
   experiments_submission_allowed amo user parsed_addon_data = Ok true)
  ∧ (parsed_addon_data !! "type" = None →
     langpack_submission_allowed amo user parsed_addon_data = Ok true)
  ∧ (parsed_addon_data !! "guid" = None →
     "" ∉ RESERVED_ADDON_GUIDS amo →
     reserved_guid_addon_submission_allowed amo user parsed_addon_data
     = Ok true)
  ∧ (parsed_addon_data !! "is_mozilla_signed_extension" = None →
     mozilla_signed_extension_submission_allowed amo user parsed_addon_data
     = Ok true).
Proof.
  repeat split.
  - intros H. unfold experiments_submission_allowed, dict_get. by rewrite H.
  - intros H. unfold langpack_submission_allowed, dict_get. by rewrite H.
  - intros H Hout.
    unfold reserved_guid_addon_submission_allowed, dict_get. rewrite H.
    simpl. by rewrite endswith_any_empty.
  - intros H.
    unfold mozilla_signed_extension_submission_allowed, dict_get.
    by rewrite H.
Qed.

Lemma submission_allowed_missing_field_witness :
  experiments_submission_allowed Sample.amo Sample.developer
    {[ "guid" := PyStr "addon@example.com" ]} = Ok true
  ∧ reserved_guid_addon_submission_allowed Sample.amo Sample.developer
      {[ "is_experiment" := PyBool true ]} = Ok true.
Proof.
  split.
  - apply (submission_allowed_missing_field Sample.amo Sample.developer
             {[ "guid" := PyStr "addon@example.com" ]}).
    reflexivity.
  - apply (submission_allowed_missing_field Sample.amo Sample.developer
             {[ "is_experiment" := PyBool true ]}).
    + reflexivity.
    + apply (bool_decide_unpack _). by vm_compute.
Defined.

Lemma experiments_submission_missing_field_counterexample :
  (∅ : gmap string pyval) !! "is_experiment" = None
  ∧ experiments_submission_allowed Sample.amo Sample.developer ∅ = Ok true
  ∧ (∅ : gmap string pyval) !! "guid" = None
  ∧ reserved_guid_addon_submission_allowed Sample.amo Sample.developer ∅
    = Ok true.
Proof. repeat split. Qed.

(** ** Ownership *)

(** C10: an object without a [check_ownership] attribute is denied for every
    combination of the flags, without raising; for an object that has one,
    the outcome is that of the object's own method on the same request and
    flags. *)
Theorem check_ownership_delegates request obj
    (require_owner require_author ignore_disabled admin : bool) :
  (check_ownership_attr obj = None →
   check_ownership request obj require_owner require_author ignore_disabled
     admin = Ok (PyBool false))
  ∧ (∀ method, check_ownership_attr obj = Some method →
     check_ownership request obj require_owner require_author ignore_disabled
       admin
     = method request require_owner require_author ignore_disabled admin).
Proof.
  unfold check_ownership. split.
  - by intros ->.
  - by intros method ->.
Qed.

Lemma check_ownership_delegates_witness :
  check_ownership {| user := Sample.developer |} Sample.plain_object
    true true true true = Ok (PyBool false)
  ∧ check_ownership {| user := Sample.developer |} Sample.owned_object
      false false false true = Ok (PyBool true).
Proof.
  split.
  - apply (check_ownership_delegates {| user := Sample.developer |}
             Sample.plain_object true true true true).
    reflexivity.
  - destruct (check_ownership_delegates {| user := Sample.developer |}
                Sample.owned_object false false false true) as [_ Hsome].
    exact (Hsome _ eq_refl).
Defined.

(** C9: for an authenticated user who is not the author of the collection
    and who, if the collection belongs to the task user, is not a curation
    admin, [require_owner=True] gives [False] whatever the collection and
    the other permissions are, and [require_owner=False] gives [True]
    exactly when the collection is the featured-themes collection and the
    user holds the collections-contribute permission. *)
Theorem check_collection_ownership_non_owner amo settings request collection :
  is_authenticated (user request) = true →
  id (user request) ≠ author_id collection →
  (author_id collection = TASK_USER_ID settings →
   action_allowed_user amo (user request) (ADMIN_CURATION amo) = Ok false) →
  check_collection_ownership amo settings request collection true = Ok false
  ∧ (check_collection_ownership amo settings request collection false
     = Ok true
     ↔ pk collection = COLLECTION_FEATURED_THEMES_ID settings
       ∧ action_allowed_user amo (user request) (COLLECTIONS_CONTRIBUTE amo)
         = Ok true).
Proof.
  intros Hauth Hid Hcur. unfold check_collection_ownership. rewrite Hauth.
  simpl negb. cbv iota.
  destruct (Z.eqb_spec (id (user request)) (author_id collection)); [done|].
  assert (and_then (author_id collection =? TASK_USER_ID settings)
            (action_allowed_user amo (user request) (ADMIN_CURATION amo))
          = Ok false) as ->.
  { destruct (Z.eqb_spec (author_id collection) (TASK_USER_ID settings));
      simpl; auto. }
  simpl. split; [done|].
  destruct (Z.eqb_spec (pk collection)
              (COLLECTION_FEATURED_THEMES_ID settings)); simpl.
  - tauto.
  - split; [done|]. by intros [? _].
Qed.

Lemma check_collection_ownership_non_owner_witness :
  check_collection_ownership Sample.amo Sample.settings
    {| user := Sample.contributor |} Sample.featured_themes true = Ok false
  ∧ check_collection_ownership Sample.amo Sample.settings
      {| user := Sample.contributor |} Sample.featured_themes false = Ok true.
Proof.
  destruct (check_collection_ownership_non_owner Sample.amo Sample.settings
              {| user := Sample.contributor |} Sample.featured_themes)
    as [Hstrict Hlax].
  - reflexivity.
  - discriminate.
  - discriminate.
  - split; [exact Hstrict|]. apply Hlax. split; reflexivity.
Defined.

(** C4: for an authenticated user, a deleted add-on gives [False] whatever
    the flags and the permissions are; an add-on that is not deleted gives
    [True] to a user holding [Addons:Edit] when [admin=True], whatever its
    status; and a disabled add-on with [ignore_disabled=False] gives [False]
    to a user who lacks [Addons:Edit], whatever roles the user has on it. *)
Theorem check_addon_ownership_deleted_disabled amo request addon
    (dev admin ignore_disabled : bool) :
  is_authenticated (user request) = true →
  (is_deleted addon = true →
   check_addon_ownership amo request addon dev admin ignore_disabled
   = Ok false)
  ∧ (is_deleted addon = false → admin = true →
     action_allowed_user amo (user request) (ADDONS_EDIT amo) = Ok true →
     check_addon_ownership amo request addon dev admin ignore_disabled
     = Ok true)
  ∧ (status addon = STATUS_DISABLED amo → ignore_disabled = false →
     action_allowed_user amo (user request) (ADDONS_EDIT amo) = Ok false →
     check_addon_ownership amo request addon dev admin ignore_disabled
     = Ok false).
Proof.
  intros Hauth. unfold check_addon_ownership, action_allowed.
  rewrite Hauth. simpl negb. cbv iota. repeat split.
  - by intros ->.
  - intros -> -> Hedit. simpl. by rewrite Hedit.
  - intros Hstatus -> Hedit. destruct (is_deleted addon); [done|].
    rewrite Hedit. rewrite Hstatus, Z.eqb_refl. by destruct admin.
Qed.

Lemma check_addon_ownership_deleted_disabled_witness :
  check_addon_ownership Sample.amo {| user := Sample.editor |}
    Sample.deleted_addon false true false = Ok false
  ∧ check_addon_ownership Sample.amo {| user := Sample.editor |}
      Sample.disabled_addon false true false = Ok true
  ∧ check_addon_ownership Sample.amo {| user := Sample.developer |}
      Sample.disabled_addon false true false = Ok false.
Proof.
  split; [|split].
  - destruct (check_addon_ownership_deleted_disabled Sample.amo
                {| user := Sample.editor |} Sample.deleted_addon
                false true false eq_refl) as (Hdeleted & _ & _).
    apply Hdeleted. reflexivity.
  - destruct (check_addon_ownership_deleted_disabled Sample.amo
                {| user := Sample.editor |} Sample.disabled_addon
                false true false eq_refl) as (_ & Hedit & _).
    apply Hedit; reflexivity.
  - destruct (check_addon_ownership_deleted_disabled Sample.amo
                {| user := Sample.developer |} Sample.disabled_addon
                false true false eq_refl) as (_ & _ & Hdisabled).
    apply Hdisabled; reflexivity.
Defined.

(** * Further properties of the module *)

(** ** Composition of rule sets *)

Lemma split_app sep s t :
  Py.split sep (s +:+ String sep t) = Py.split sep s ++ Py.split sep t.
Proof.
  induction s as [|c s IH]; simpl.
  - by rewrite (proj2 (ascii_eqb_eq sep sep) eq_refl).
  - destruct (ascii_eqb c sep); [by rewrite IH|].
    rewrite IH. pose proof (split_not_nil sep s) as Hne.
    by destruct (Py.split sep s).
Qed.

Lemma match_rules_loop_app l1 l2 app action :
  match_rules_loop (l1 ++ l2) app action =
    b ← match_rules_loop l1 app action;
    if b : bool then Ok true else match_rules_loop l2 app action.
Proof.
  induction l1 as [|rule l1 IH]; simpl; [done|].
  destruct (Py.unpack2 (Py.split ":" rule)) as [[d a]|e]; simpl; [|done].
  destruct (str_eqb d "*" || str_eqb d app); [|done].
  by destruct (str_eqb a "*" || str_eqb a action || str_eqb action "%").
Qed.

(** X1: joining two rule sets with a comma gives the short-circuit
    disjunction of the two scans, exceptions included: the second rule set
    is scanned only when the first returns [False]. *)
Theorem match_rules_join rules1 rules2 app action :
  match_rules (rules1 +:+ "," +:+ rules2) app action =
    match match_rules rules1 app action with
    | Ok true => Ok true
    | Ok false => match_rules rules2 app action
    | Raise e => Raise e
    end.
Proof.
  unfold match_rules.
  change (rules1 +:+ "," +:+ rules2) with (rules1 +:+ String "," rules2).
  rewrite split_app, match_rules_loop_app.
  by destruct (match_rules_loop (Py.split "," rules1) app action) as [[|]|].
Qed.

(** X2: on well-formed rule sets the order of the rules does not matter. *)
Theorem match_rules_permutation rules1 rules2 app action :
  well_formed_rules rules1 →
  Py.split "," rules1 ≡ₚ Py.split "," rules2 →
  match_rules rules1 app action = match_rules rules2 app action.
Proof.
  intros Hwf1 Hperm.
  assert (well_formed_rules rules2) as Hwf2.
  { unfold well_formed_rules in *. by rewrite <- Hperm. }
  destruct (match_rules_loop_well_formed _ app action Hwf1) as (b1 & H1 & Hb1).
  destruct (match_rules_loop_well_formed _ app action Hwf2) as (b2 & H2 & Hb2).
  unfold match_rules. rewrite H1, H2. f_equal.
  apply eq_true_iff_eq. rewrite Hb1, Hb2.
  split; intros (d & a & Hin & Hg); exists d, a; split; try done.
  - by rewrite <- Hperm.
  - by rewrite Hperm.
Qed.

Lemma match_rules_permutation_witness :
  match_rules "Addons:Edit,Stats:View" "Addons" "Edit"
  = match_rules "Stats:View,Addons:Edit" "Addons" "Edit".
Proof.
  apply (match_rules_permutation
           "Addons:Edit,Stats:View" "Stats:View,Addons:Edit" "Addons" "Edit").
  - unfold well_formed_rules. simpl. repeat constructor.
  - simpl. apply perm_swap.
Defined.

Lemma match_rules_grant_after_well_formed rules app action pre d a post :
  Py.split "," rules = pre ++ (d +:+ ":" +:+ a) :: post →
  Forall (λ rule, Py.count ":" rule = 1%nat) pre →
  Py.count ":" d = 0%nat → Py.count ":" a = 0%nat →
  grants d a app action →
  match_rules rules app action = Ok true.
Proof.
  intros Hsplit Hpre Hd Ha Hg. unfold match_rules. rewrite Hsplit.
  rewrite match_rules_loop_app.
  destruct (match_rules_loop_well_formed pre app action Hpre)
    as (b & -> & _).
  destruct b; simpl; [done|].
  assert (Py.split ":" (d +:+ ":" +:+ a) = [d; a]) as Hrule.
  { change (d +:+ ":" +:+ a) with (d +:+ String ":" a).
    by rewrite split_app_sep, split_no_sep. }
  rewrite Hrule. simpl.
  apply grants_test in Hg. apply andb_true_iff in Hg as [-> ->]. done.
Qed.

(** X3: the scan stops at the first granting rule. When the rules before a
    granting rule are well formed the result is [True] whatever follows it,
    malformed rules included. *)
Theorem match_rules_stops_scanning rules app action pre d a post :
  Py.split "," rules = pre ++ (d +:+ ":" +:+ a) :: post →
  Forall (λ rule, Py.count ":" rule = 1%nat) pre →
  Py.count ":" d = 0%nat → Py.count ":" a = 0%nat →
  grants d a app action →
  match_rules rules app action = Ok true.
Proof. apply match_rules_grant_after_well_formed. Qed.

Lemma match_rules_stops_scanning_witness :
  match_rules "Stats:View,*:*,Admin,a:b:c" "Addons" "Edit" = Ok true.
Proof.
  apply (match_rules_stops_scanning "Stats:View,*:*,Admin,a:b:c"
           "Addons" "Edit" ["Stats:View"] "*" "*" ["Admin"; "a:b:c"]).
  - reflexivity.
  - repeat constructor.
  - reflexivity.
  - reflexivity.
  - split; by left.
Defined.

(** X4: the requested action ['%'] disables the comparison of actions: on a
    well-formed rule set the result is [True] exactly when some rule has the
    requested app, or ['*'], as its domain. *)
Theorem match_rules_any_action rules app :
  well_formed_rules rules →
  match_rules rules app "%" = Ok true ↔
  ∃ d a, (d +:+ ":" +:+ a) ∈ Py.split "," rules ∧ (d = "*" ∨ d = app).
Proof.
  intros Hwf.
  destruct (match_rules_loop_well_formed _ app "%" Hwf) as (b & Hb & Hiff).
  unfold match_rules. rewrite Hb. split.
  - intros [= ->]. destruct (proj1 Hiff eq_refl) as (d & a & Hin & Hd & _).
    eauto.
  - intros (d & a & Hin & Hd). f_equal. apply Hiff.
    exists d, a. split; [done|]. split; [done|]. by right; right.
Qed.

Lemma match_rules_any_action_witness :
  match_rules "Stats:View,Addons:Review" "Addons" "%" = Ok true ↔
  ∃ d a, (d +:+ ":" +:+ a) ∈ Py.split "," "Stats:View,Addons:Review"
         ∧ (d = "*" ∨ d = "Addons").
Proof.
  apply (match_rules_any_action "Stats:View,Addons:Review" "Addons").
  unfold well_formed_rules. simpl. repeat constructor.
Defined.

(** ** Groups *)

Lemma any_app {A} (f : A → result bool) l1 l2 :
  Py.any f (l1 ++ l2) =
    b ← Py.any f l1; if b : bool then Ok true else Py.any f l2.
Proof.
  induction l1 as [|x l1 IH]; simpl; [done|].
  destruct (f x) as [[|]|e]; simpl; done.
Qed.

Lemma any_false_iff {A} (f : A → result bool) xs :
  Py.any f xs = Ok false ↔ Forall (λ x, f x = Ok false) xs.
Proof.
  induction xs as [|x xs IH]; simpl; [by split|].
  rewrite Forall_cons. destruct (f x) as [[|]|e]; simpl.
  - split; [done|]. by intros [? _].
  - rewrite IH. tauto.
  - split; [done|]. by intros [? _].
Qed.

Lemma any_true_elem {A} (f : A → result bool) xs :
  Py.any f xs = Ok true → ∃ x, x ∈ xs ∧ f x = Ok true.
Proof.
  intros H. apply any_true_iff in H as (pre & x & post & -> & Hx & _).
  exists x. split; [|done].
  apply elem_of_app. right. apply elem_of_cons. by left.
Qed.

Lemma any_prefix_true {A} (f : A → result bool) l1 l2 :
  Py.any f l1 = Ok true → Py.any f (l1 ++ l2) = Ok true.
Proof. intros H. by rewrite any_app, H. Qed.

(** An [Ok true] answer of [action_allowed_user] means the two guards were
    passed and the scan of the groups gave it. *)
Lemma action_allowed_user_true_inv amo u permission :
  action_allowed_user amo u permission = Ok true →
  is_authenticated u = true ∧ permission ∈ PERMISSIONS_LIST amo
  ∧ Py.any (λ group, match_rules (rules group) (app permission)
                                 (action permission))
           (groups_list u) = Ok true.
Proof.
  unfold action_allowed_user. destruct (is_authenticated u); [|done].
  simpl. case_bool_decide; done.
Qed.

(** X5: access granted by the groups a principal has is not revoked by a
    further group, wherever it is inserted in the list, unless scanning the
    new group raises. *)
Theorem action_allowed_user_add_group amo auth uid pre new post permission :
  action_allowed_user amo
    {| is_authenticated := auth; id := uid; groups_list := pre ++ post |}
    permission = Ok true →
  is_raise (match_rules (rules new) (app permission) (action permission))
  = false →
  action_allowed_user amo
    {| is_authenticated := auth; id := uid;
       groups_list := pre ++ new :: post |}
    permission = Ok true.
Proof.
  intros Hold Hnew.
  apply action_allowed_user_true_inv in Hold as (Hauth & Hin & Hany).
  simpl in *. subst auth.
  rewrite action_allowed_user_scan by done. simpl.
  rewrite any_app in Hany. rewrite any_app.
  destruct (Py.any _ pre) as [[|]|e]; simpl in *; try done.
  destruct (match_rules (rules new) _ _) as [[|]|e]; simpl in *; done.
Qed.

Lemma action_allowed_user_add_group_witness :
  action_allowed_user Sample.amo
    {| is_authenticated := true; id := 1;
       groups_list := [ {| rules := "Stats:View" |} ]
                      ++ {| rules := "Admin:Curation" |}
                         :: [ {| rules := "Reviews:Edit,Addons:Edit" |} ] |}
    (ADDONS_EDIT Sample.amo) = Ok true.
Proof.
  apply (action_allowed_user_add_group Sample.amo true 1
           [ {| rules := "Stats:View" |} ] {| rules := "Admin:Curation" |}
           [ {| rules := "Reviews:Edit,Addons:Edit" |} ]
           (ADDONS_EDIT Sample.amo)); reflexivity.
Defined.

Lemma any_groups_joined (gs : list Group) app action :
  gs ≠ [] →
  Py.any (λ group, match_rules (rules group) app action) gs =
    match_rules (join_rules (rules <$> gs)) app action.
Proof.
  induction gs as [|g gs IH]; [done|]. intros _.
  destruct gs as [|g' gs].
  - change (join_rules (rules <$> [g])) with (rules g).
    change (Py.any ?f [g]) with (b ← f g; if b : bool then Ok true
                                          else Ok false).
    by destruct (match_rules (rules g) app action) as [[|]|].
  - change (join_rules (rules <$> g :: g' :: gs))
      with (rules g +:+ "," +:+ join_rules (rules <$> g' :: gs)).
    rewrite match_rules_join, <- IH by done.
    change (Py.any ?f (g :: ?l)) with (b ← f g; if b : bool then Ok true
                                               else Py.any f l).
    by destruct (match_rules (rules g) app action) as [[|]|].
Qed.

(** X6: for an authenticated principal with at least one group and a
    permission of the enumeration, the answer is that of [match_rules] on
    the rule sets of the groups joined by commas, in the order of the list:
    how the rules are distributed over the groups does not matter. *)
Theorem action_allowed_user_joined_rules amo u permission :
  is_authenticated u = true →
  permission ∈ PERMISSIONS_LIST amo →
  groups_list u ≠ [] →
  action_allowed_user amo u permission =
    match_rules (join_rules (rules <$> groups_list u))
                (app permission) (action permission).
Proof.
  intros Hauth Hin Hne. rewrite action_allowed_user_scan by done.
  by apply any_groups_joined.
Qed.

Lemma action_allowed_user_joined_rules_witness :
  action_allowed_user Sample.amo Sample.editor (ADDONS_EDIT Sample.amo)
  = match_rules "Stats:View,Reviews:Edit,Addons:Edit" "Addons" "Edit".
Proof.
  apply (action_allowed_user_joined_rules Sample.amo Sample.editor
           (ADDONS_EDIT Sample.amo)).
  - reflexivity.
  - apply (bool_decide_unpack _). by vm_compute.
  - discriminate.
Defined.

(** A principal without groups is denied, although the empty rule set makes
    [match_rules] raise: the scan is over the groups, not over a string. *)
Example action_allowed_user_no_groups :
  action_allowed_user Sample.amo
    {| is_authenticated := true; id := 8; groups_list := [] |}
    (ADDONS_EDIT Sample.amo) = Ok false.
Proof. reflexivity. Qed.

(** ** Reviewers *)

Lemma any_all_false {A} (f : A → result bool) xs :
  (∀ x, f x = Ok false) → Py.any f xs = Ok false.
Proof.
  intros H. apply any_false_iff. apply Forall_forall. auto.
Qed.

(** X7: an unauthenticated principal is denied by the capability resolver,
    by both ownership checks and by every reviewer predicate, whatever the
    permission, the resource, the flags and the groups are; nothing is
    asserted or scanned on the way. *)
Theorem unauthenticated_denied_everywhere amo settings amo_reviewers
    request permission collection
    addon typed_addon
    (require_owner dev admin ignore_disabled allow_content_reviewers
     allow_viewers : bool) :
  is_authenticated (user request) = false →
  action_allowed amo request permission = Ok false
  ∧ check_collection_ownership amo settings request collection require_owner
    = Ok false
  ∧ check_addon_ownership amo request addon dev admin ignore_disabled
    = Ok false
  ∧ check_listed_addons_reviewer amo amo_reviewers request
      allow_content_reviewers = Ok false
  ∧ check_listed_addons_viewer_or_reviewer amo amo_reviewers request
      allow_content_reviewers = Ok false
  ∧ check_unlisted_addons_reviewer amo amo_reviewers request = Ok false
  ∧ check_unlisted_addons_viewer_or_reviewer amo amo_reviewers request
    = Ok false
  ∧ check_static_theme_reviewer amo amo_reviewers request = Ok false
  ∧ is_reviewer amo amo_reviewers request typed_addon allow_content_reviewers
    = Ok false
  ∧ is_user_any_kind_of_reviewer amo amo_reviewers (user request)
      allow_viewers = Ok false.
Proof.
  intros Hanon.
  assert (∀ p, action_allowed amo request p = Ok false) as Hno.
  { intros p. by apply action_allowed_user_anonymous. }
  assert (∀ b, check_listed_addons_reviewer amo amo_reviewers request b
               = Ok false) as Hlisted.
  { intros b. unfold check_listed_addons_reviewer. by apply any_all_false. }
  repeat split; try done.
  - unfold check_collection_ownership. by rewrite Hanon.
  - unfold check_addon_ownership. by rewrite Hanon.
  - unfold check_listed_addons_viewer_or_reviewer. rewrite Hno. simpl.
    apply Hlisted.
  - apply Hno.
  - unfold check_unlisted_addons_viewer_or_reviewer. rewrite Hno. simpl.
    apply Hno.
  - apply Hno.
  - unfold is_reviewer. destruct (_ =? _); [apply Hno|apply Hlisted].
  - unfold is_user_any_kind_of_reviewer. apply any_all_false. apply Hno.
Qed.

(** X8: allowing content reviewers only widens the listed-reviewer checks:
    whoever passes with [allow_content_reviewers=False] passes with
    [allow_content_reviewers=True]. *)
Theorem allow_content_reviewers_widens amo amo_reviewers request typed_addon :
  (check_listed_addons_reviewer amo amo_reviewers request false = Ok true →
   check_listed_addons_reviewer amo amo_reviewers request true = Ok true)
  ∧ (check_listed_addons_viewer_or_reviewer amo amo_reviewers request false
     = Ok true →
     check_listed_addons_viewer_or_reviewer amo amo_reviewers request true
     = Ok true)
  ∧ (is_reviewer amo amo_reviewers request typed_addon false = Ok true →
     is_reviewer amo amo_reviewers request typed_addon true = Ok true).
Proof.
  assert (check_listed_addons_reviewer amo amo_reviewers request false
          = Ok true →
          check_listed_addons_reviewer amo amo_reviewers request true
          = Ok true) as Hlisted.
  { unfold check_listed_addons_reviewer. apply any_prefix_true. }
  repeat split; [done| |].
  - unfold check_listed_addons_viewer_or_reviewer.
    destruct (action_allowed amo request _) as [[|]|e]; simpl; auto.
  - unfold is_reviewer. destruct (_ =? _); auto.
Qed.

Lemma allow_content_reviewers_widens_witness :
  check_listed_addons_reviewer SampleReviewers.amo
    SampleReviewers.amo_reviewers {| user := SampleReviewers.reviewer |} true
  = Ok true
  ∧ is_reviewer SampleReviewers.amo SampleReviewers.amo_reviewers
      {| user := SampleReviewers.theme_reviewer |}
      SampleReviewers.static_theme true
    = Ok true.
Proof.
  split.
  - apply (allow_content_reviewers_widens SampleReviewers.amo
             SampleReviewers.amo_reviewers
             {| user := SampleReviewers.reviewer |}
             SampleReviewers.extension).
    reflexivity.
  - destruct (allow_content_reviewers_widens SampleReviewers.amo
                SampleReviewers.amo_reviewers
                {| user := SampleReviewers.theme_reviewer |}
                SampleReviewers.static_theme) as (_ & _ & Hrev).
    apply Hrev. reflexivity.
Defined.

(** X10: allowing viewers only widens [is_user_any_kind_of_reviewer]. *)
Theorem allow_viewers_widens amo amo_reviewers u :
  is_user_any_kind_of_reviewer amo amo_reviewers u false = Ok true →
  is_user_any_kind_of_reviewer amo amo_reviewers u true = Ok true.
Proof. unfold is_user_any_kind_of_reviewer. apply any_prefix_true. Qed.

Lemma allow_viewers_widens_witness :
  is_user_any_kind_of_reviewer SampleReviewers.amo
    SampleReviewers.amo_reviewers SampleReviewers.content_reviewer true
  = Ok true.
Proof.
  apply (allow_viewers_widens SampleReviewers.amo
           SampleReviewers.amo_reviewers SampleReviewers.content_reviewer).
  reflexivity.
Defined.

Lemma unauthenticated_denied_everywhere_witness :
  check_addon_ownership Sample.amo {| user := Sample.anonymous |}
    Sample.disabled_addon true true true = Ok false
  ∧ is_user_any_kind_of_reviewer SampleReviewers.amo
      SampleReviewers.amo_reviewers Sample.anonymous true = Ok false.
Proof.
  split.
  - apply (unauthenticated_denied_everywhere Sample.amo Sample.settings
             SampleReviewers.amo_reviewers {| user := Sample.anonymous |}
             (ADDONS_EDIT Sample.amo) Sample.featured_themes
             Sample.disabled_addon SampleReviewers.static_theme
             false true true true true true).
    reflexivity.
  - apply (unauthenticated_denied_everywhere SampleReviewers.amo
             Sample.settings SampleReviewers.amo_reviewers
             {| user := Sample.anonymous |}
             (ADDONS_EDIT Sample.amo) Sample.featured_themes
             Sample.disabled_addon SampleReviewers.static_theme
             false true true true true true).
    reflexivity.
Defined.

(** ** Well-formed principals *)

Lemma any_total {A} (f : A → result bool) xs :
  (∀ x, x ∈ xs → is_raise (f x) = false) → is_raise (Py.any f xs) = false.
Proof.
  intros H. by destruct (any_no_raise f xs H) as (b & -> & _).
Qed.

Lemma match_rules_total rule_set app action :
  well_formed_rules rule_set →
  is_raise (match_rules rule_set app action) = false.
Proof.
  intros Hwf. unfold match_rules.
  by destruct (match_rules_loop_well_formed _ app action Hwf) as (b & -> & _).
Qed.

Lemma action_allowed_user_total amo u permission :
  well_formed_user u →
  permission ∈ PERMISSIONS_LIST amo →
  is_raise (action_allowed_user amo u permission) = false.
Proof.
  intros Hwf Hin. unfold action_allowed_user.
  destruct (is_authenticated u); [|done]. simpl.
  rewrite bool_decide_eq_true_2 by done. simpl.
  apply any_total. intros g Hg. apply match_rules_total.
  unfold well_formed_user in Hwf. rewrite Forall_forall in Hwf. auto.
Qed.

(** Membership in a list that is written out. *)
Ltac elem_of_here :=
  solve [repeat (apply elem_of_cons; first [by left | right])].

Ltac elem_of_cases H :=
  repeat (apply elem_of_cons in H as [->|H]; [elem_of_here|]);
  by apply elem_of_nil in H.

Lemma or_else_total (r1 r2 : result bool) :
  is_raise r1 = false → is_raise r2 = false →
  is_raise (viewer ← r1; or_else viewer r2) = false.
Proof. destruct r1 as [[|]|]; simpl; done. Qed.

Lemma reviewer_permission_total amo amo_reviewers u p :
  well_formed_user u →
  Forall (λ p, p ∈ PERMISSIONS_LIST amo)
    [ADDONS_REVIEW amo_reviewers; ADDONS_RECOMMENDED_REVIEW amo_reviewers;
     ADDONS_CONTENT_REVIEW amo_reviewers; ADDONS_REVIEW_UNLISTED amo_reviewers;
     REVIEWER_TOOLS_VIEW amo_reviewers;
     REVIEWER_TOOLS_UNLISTED_VIEW amo_reviewers;
     STATIC_THEMES_REVIEW amo_reviewers] →
  p ∈ [ADDONS_REVIEW amo_reviewers; ADDONS_RECOMMENDED_REVIEW amo_reviewers;
       ADDONS_CONTENT_REVIEW amo_reviewers;
       ADDONS_REVIEW_UNLISTED amo_reviewers;
       REVIEWER_TOOLS_VIEW amo_reviewers;
       REVIEWER_TOOLS_UNLISTED_VIEW amo_reviewers;
       STATIC_THEMES_REVIEW amo_reviewers] →
  is_raise (action_allowed_user amo u p) = false.
Proof.
  intros Hwf Hin Hp. rewrite Forall_forall in Hin.
  apply action_allowed_user_total; auto.
Qed.

Lemma any_kind_of_reviewer_total amo amo_reviewers u allow_viewers :
  well_formed_user u →
  Forall (λ p, p ∈ PERMISSIONS_LIST amo)
    [ADDONS_REVIEW amo_reviewers; ADDONS_RECOMMENDED_REVIEW amo_reviewers;
     ADDONS_CONTENT_REVIEW amo_reviewers; ADDONS_REVIEW_UNLISTED amo_reviewers;
     REVIEWER_TOOLS_VIEW amo_reviewers;
     REVIEWER_TOOLS_UNLISTED_VIEW amo_reviewers;
     STATIC_THEMES_REVIEW amo_reviewers] →
  is_raise (is_user_any_kind_of_reviewer amo amo_reviewers u allow_viewers)
  = false.
Proof.
  intros Hwf Hin. unfold is_user_any_kind_of_reviewer.
  apply any_total. intros p Hp.
  apply (reviewer_permission_total amo amo_reviewers); [done|done|].
  destruct allow_viewers; simpl in Hp; elem_of_cases Hp.
Qed.

(** X11: for a principal whose groups all have well-formed rule sets, and
    with the seven reviewer permissions in the enumeration, no reviewer
    predicate raises: each returns a boolean. *)
Theorem reviewer_predicates_return amo amo_reviewers request typed_addon
    (allow_content_reviewers allow_viewers : bool) :
  well_formed_user (user request) →
  Forall (λ p, p ∈ PERMISSIONS_LIST amo)
    [ADDONS_REVIEW amo_reviewers; ADDONS_RECOMMENDED_REVIEW amo_reviewers;
     ADDONS_CONTENT_REVIEW amo_reviewers; ADDONS_REVIEW_UNLISTED amo_reviewers;
     REVIEWER_TOOLS_VIEW amo_reviewers;
     REVIEWER_TOOLS_UNLISTED_VIEW amo_reviewers;
     STATIC_THEMES_REVIEW amo_reviewers] →
  is_raise (check_listed_addons_reviewer amo amo_reviewers request
              allow_content_reviewers) = false
  ∧ is_raise (check_listed_addons_viewer_or_reviewer amo amo_reviewers request
                allow_content_reviewers) = false
  ∧ is_raise (check_unlisted_addons_reviewer amo amo_reviewers request)
    = false
  ∧ is_raise (check_unlisted_addons_viewer_or_reviewer amo amo_reviewers
                request) = false
  ∧ is_raise (check_static_theme_reviewer amo amo_reviewers request) = false
  ∧ is_raise (is_reviewer amo amo_reviewers request typed_addon
                allow_content_reviewers) = false
  ∧ is_raise (is_user_any_kind_of_reviewer amo amo_reviewers (user request)
                allow_viewers) = false.
Proof.
  intros Hwf Hin.
  pose proof (reviewer_permission_total amo amo_reviewers (user request))
    as Hok.
  assert (is_raise (check_listed_addons_reviewer amo amo_reviewers request
                      allow_content_reviewers) = false) as Hlisted.
  { unfold check_listed_addons_reviewer. apply any_total. intros p Hp.
    apply Hok; [done|done|].
    destruct allow_content_reviewers; simpl in Hp; elem_of_cases Hp. }
  repeat split; try done.
  - apply or_else_total; [|done]. apply Hok; [done|done|elem_of_here].
  - apply Hok; [done|done|elem_of_here].
  - apply or_else_total; apply Hok; try done; elem_of_here.
  - apply Hok; [done|done|elem_of_here].
  - unfold is_reviewer. destruct (_ =? _); [|done].
    apply Hok; [done|done|elem_of_here].
  - by apply any_kind_of_reviewer_total.
Qed.

Lemma sample_reviewer_permissions_enumerated :
  Forall (λ p, p ∈ PERMISSIONS_LIST SampleReviewers.amo)
    [ADDONS_REVIEW SampleReviewers.amo_reviewers;
     ADDONS_RECOMMENDED_REVIEW SampleReviewers.amo_reviewers;
     ADDONS_CONTENT_REVIEW SampleReviewers.amo_reviewers;
     ADDONS_REVIEW_UNLISTED SampleReviewers.amo_reviewers;
     REVIEWER_TOOLS_VIEW SampleReviewers.amo_reviewers;
     REVIEWER_TOOLS_UNLISTED_VIEW SampleReviewers.amo_reviewers;
     STATIC_THEMES_REVIEW SampleReviewers.amo_reviewers].
Proof.
  apply Forall_forall. intros p Hp.
  apply (bool_decide_unpack _).
  repeat (apply elem_of_cons in Hp as [->|Hp]; [by vm_compute|]).
  by apply elem_of_nil in Hp.
Qed.

Lemma theme_reviewer_well_formed :
  well_formed_user SampleReviewers.theme_reviewer.
Proof. repeat constructor. Qed.

Lemma reviewer_predicates_return_witness :
  is_raise (is_user_any_kind_of_reviewer SampleReviewers.amo
              SampleReviewers.amo_reviewers SampleReviewers.theme_reviewer
              false) = false.
Proof.
  apply (reviewer_predicates_return SampleReviewers.amo
           SampleReviewers.amo_reviewers
           {| user := SampleReviewers.theme_reviewer |}
           SampleReviewers.static_theme true false).
  - apply theme_reviewer_well_formed.
  - apply sample_reviewer_permissions_enumerated.
Defined.

(** The permissions [is_reviewer] may consult are among those
    [is_user_any_kind_of_reviewer] consults. *)
Lemma is_reviewer_true_permission amo amo_reviewers request typed_addon
    allow_content_reviewers :
  is_reviewer amo amo_reviewers request typed_addon allow_content_reviewers
  = Ok true →
  ∃ p, p ∈ [ADDONS_REVIEW amo_reviewers;
            ADDONS_REVIEW_UNLISTED amo_reviewers;
            ADDONS_CONTENT_REVIEW amo_reviewers;
            ADDONS_RECOMMENDED_REVIEW amo_reviewers;
            STATIC_THEMES_REVIEW amo_reviewers]
       ∧ action_allowed_user amo (user request) p = Ok true.
Proof.
  unfold is_reviewer, check_static_theme_reviewer,
    check_listed_addons_reviewer, action_allowed.
  destruct (_ =? _).
  - intros H. eexists. split; [|exact H]. elem_of_here.
  - intros H. apply any_true_elem in H as (p & Hp & Htrue).
    exists p. split; [|done].
    destruct allow_content_reviewers; simpl in Hp; elem_of_cases Hp.
Qed.

(** X9: [is_user_any_kind_of_reviewer] is laxer than [is_reviewer]: when
    [is_reviewer] returns [True] for some add-on, the lax check never
    returns [False] for the same user; it returns [True] when the user's
    rule sets are well formed and the reviewer permissions are in the
    enumeration (otherwise it may raise before reaching the permission). *)
Theorem is_reviewer_is_any_kind amo amo_reviewers request typed_addon
    (allow_content_reviewers allow_viewers : bool) :
  is_reviewer amo amo_reviewers request typed_addon allow_content_reviewers
  = Ok true →
  is_user_any_kind_of_reviewer amo amo_reviewers (user request) allow_viewers
  ≠ Ok false
  ∧ (well_formed_user (user request) →
     Forall (λ p, p ∈ PERMISSIONS_LIST amo)
       [ADDONS_REVIEW amo_reviewers; ADDONS_RECOMMENDED_REVIEW amo_reviewers;
        ADDONS_CONTENT_REVIEW amo_reviewers;
        ADDONS_REVIEW_UNLISTED amo_reviewers;
        REVIEWER_TOOLS_VIEW amo_reviewers;
        REVIEWER_TOOLS_UNLISTED_VIEW amo_reviewers;
        STATIC_THEMES_REVIEW amo_reviewers] →
     is_user_any_kind_of_reviewer amo amo_reviewers (user request)
       allow_viewers = Ok true).
Proof.
  intros Hrev.
  apply is_reviewer_true_permission in Hrev as (p & Hp & Htrue).
  assert (is_user_any_kind_of_reviewer amo amo_reviewers (user request)
            allow_viewers ≠ Ok false) as Hlax.
  { unfold is_user_any_kind_of_reviewer. intros Hfalse.
    apply any_false_iff in Hfalse. rewrite Forall_forall in Hfalse.
    specialize (Hfalse p). rewrite Htrue in Hfalse.
    assert (Ok true = Ok false :> result bool) as Habs; [|done].
    apply Hfalse. destruct allow_viewers; simpl; elem_of_cases Hp. }
  split; [done|]. intros Hwf Hin.
  pose proof (any_kind_of_reviewer_total amo amo_reviewers (user request)
                allow_viewers Hwf Hin) as Htotal.
  destruct (is_user_any_kind_of_reviewer amo amo_reviewers (user request)
              allow_viewers) as [[|]|e]; done.
Qed.

Lemma is_reviewer_is_any_kind_witness :
  is_user_any_kind_of_reviewer SampleReviewers.amo
    SampleReviewers.amo_reviewers SampleReviewers.theme_reviewer false
  = Ok true.
Proof.
  destruct (is_reviewer_is_any_kind SampleReviewers.amo
              SampleReviewers.amo_reviewers
              {| user := SampleReviewers.theme_reviewer |}
              SampleReviewers.static_theme false false eq_refl)
    as [_ Htrue].
  apply Htrue.
  - apply theme_reviewer_well_formed.
  - apply sample_reviewer_permissions_enumerated.
Defined.

(** The lax check can raise where [is_reviewer] returns [True]: the scan for
    the theme permission stops at the granting rule, the scan for
    [Addons:Review] goes on to the malformed one. *)
Example is_reviewer_true_any_kind_raises :
  let u := {| is_authenticated := true; id := 10;
              groups_list := [ {| rules := "Addons:ThemeReview,Admin" |} ] |} in
  is_reviewer SampleReviewers.amo SampleReviewers.amo_reviewers
    {| user := u |} SampleReviewers.static_theme true = Ok true
  ∧ is_user_any_kind_of_reviewer SampleReviewers.amo
      SampleReviewers.amo_reviewers u false
    = Raise (ValueError_not_enough_values 2 1).
Proof. split; reflexivity. Qed.

(** ** Ownership of add-ons and collections *)

Lemma addonuser_exists_spec addon u roles :
  addonuser_exists addon u roles = true ↔
  ∃ au, au ∈ addonuser_set addon ∧ addonuser_user au = id u ∧ role au ∈ roles.
Proof.
  unfold addonuser_exists. rewrite existsb_exists. split.
  - intros (au & Hin & Htest). apply andb_true_iff in Htest as [Hu Hr].
    exists au. split; [by apply list_elem_of_In|].
    split; [by apply Z.eqb_eq|by apply bool_decide_eq_true in Hr].
  - intros (au & Hin & Hu & Hr). exists au.
    split; [by apply list_elem_of_In|].
    apply andb_true_iff. split; [by apply Z.eqb_eq|].
    by apply bool_decide_eq_true.
Qed.

Lemma owner_roles_spec amo (dev : bool) r :
  r ∈ (if dev then [AUTHOR_ROLE_OWNER amo] ++ [AUTHOR_ROLE_DEV amo]
       else [AUTHOR_ROLE_OWNER amo])
  ↔ r = AUTHOR_ROLE_OWNER amo ∨ (dev = true ∧ r = AUTHOR_ROLE_DEV amo).
Proof.
  destruct dev; simpl; rewrite ?elem_of_cons, ?elem_of_nil; split.
  - intros [?|[?|[]]]; auto.
  - intros [?|[_ ?]]; auto.
  - intros [?|[]]; auto.
  - intros [?|[? _]]; [auto|done].
Qed.

(** X12: for an authenticated user who does not pass as a global editor
    ([admin=False], or [Addons:Edit] not held) and an add-on that is not
    deleted, the call returns a boolean, [True] exactly when the add-on is
    not blocked as disabled and the user has a row in [addonuser_set] with
    the owner role, or with the developer role if [dev=True]. *)
Theorem check_addon_ownership_roles amo request addon
    (dev admin ignore_disabled : bool) :
  is_authenticated (user request) = true →
  is_deleted addon = false →
  admin = false
  ∨ action_allowed_user amo (user request) (ADDONS_EDIT amo) = Ok false →
  ∃ b, check_addon_ownership amo request addon dev admin ignore_disabled
       = Ok b
       ∧ (b = true ↔
          (status addon ≠ STATUS_DISABLED amo ∨ ignore_disabled = true)
          ∧ ∃ au, au ∈ addonuser_set addon
                  ∧ addonuser_user au = id (user request)
                  ∧ (role au = AUTHOR_ROLE_OWNER amo
                     ∨ (dev = true ∧ role au = AUTHOR_ROLE_DEV amo))).
Proof.
  intros Hauth Hdel Hedit. unfold check_addon_ownership, action_allowed.
  rewrite Hauth, Hdel. simpl negb. cbv iota.
  assert (and_then admin
            (action_allowed_user amo (user request) (ADDONS_EDIT amo))
          = Ok false) as ->.
  { destruct Hedit as [->|Hedit]; [done|]. rewrite Hedit. by destruct admin. }
  simpl.
  assert ((∃ au, au ∈ addonuser_set addon
                 ∧ addonuser_user au = id (user request)
                 ∧ (role au = AUTHOR_ROLE_OWNER amo
                    ∨ (dev = true ∧ role au = AUTHOR_ROLE_DEV amo)))
          ↔ addonuser_exists addon (user request)
              (if dev then [AUTHOR_ROLE_OWNER amo] ++ [AUTHOR_ROLE_DEV amo]
               else [AUTHOR_ROLE_OWNER amo]) = true) as Hroles.
  { rewrite addonuser_exists_spec.
    split; intros (au & Hin & Hu & Hr); exists au;
      (split; [done|]); (split; [done|]); by apply owner_roles_spec. }
  destruct (Z.eqb_spec (status addon) (STATUS_DISABLED amo)) as [Hst|Hst];
    destruct ignore_disabled; simpl; eexists; (split; [done|]);
    rewrite Hroles.
  - split; [auto|]. by intros [_ ?].
  - split; [done|]. intros [[?|?] _]; done.
  - split; [auto|]. by intros [_ ?].
  - split; [auto|]. by intros [_ ?].
Qed.

Lemma check_addon_ownership_roles_witness :
  ∃ b, check_addon_ownership Sample.amo {| user := Sample.developer |}
         Sample.disabled_addon false true true = Ok b
       ∧ (b = true ↔
          (status Sample.disabled_addon ≠ STATUS_DISABLED Sample.amo
           ∨ true = true)
          ∧ ∃ au, au ∈ addonuser_set Sample.disabled_addon
                  ∧ addonuser_user au = id Sample.developer
                  ∧ (role au = AUTHOR_ROLE_OWNER Sample.amo
                     ∨ (false = true ∧ role au = AUTHOR_ROLE_DEV Sample.amo))).
Proof.
  apply (check_addon_ownership_roles Sample.amo
           {| user := Sample.developer |} Sample.disabled_addon
           false true true).
  - reflexivity.
  - reflexivity.
  - right. reflexivity.
Defined.

(** X13: the flags only widen. Whoever passes with [dev=False] passes with
    [dev=True], and whoever passes with [ignore_disabled=False] passes with
    [ignore_disabled=True]. Whoever passes with [admin=False] is never
    answered [False] with [admin=True], but the call may then raise, since
    only with [admin=True] are the user's groups scanned. *)
Theorem check_addon_ownership_flags_widen amo request addon
    (dev admin ignore_disabled : bool) :
  (check_addon_ownership amo request addon false admin ignore_disabled
   = Ok true →
   check_addon_ownership amo request addon true admin ignore_disabled
   = Ok true)
  ∧ (check_addon_ownership amo request addon dev admin false = Ok true →
     check_addon_ownership amo request addon dev admin true = Ok true)
  ∧ (check_addon_ownership amo request addon dev false ignore_disabled
     = Ok true →
     check_addon_ownership amo request addon dev true ignore_disabled
     ≠ Ok false).
Proof.
  unfold check_addon_ownership.
  destruct (is_authenticated (user request)); simpl negb; cbv iota;
    [|by repeat split].
  destruct (is_deleted addon); [by repeat split|].
  repeat split.
  - destruct (and_then admin _) as [[|]|e]; simpl; try done.
    destruct (_ && _); [done|].
    intros [= H]. f_equal. apply addonuser_exists_spec in H.
    apply addonuser_exists_spec.
    destruct H as (au & Hin & Hu & Hr). exists au.
    split; [done|]. split; [done|]. apply elem_of_cons in Hr as [->|Hr];
      [elem_of_here|by apply elem_of_nil in Hr].
  - destruct (and_then admin _) as [[|]|e]; simpl; try done.
    rewrite andb_false_r. by destruct (_ && _).
  - simpl. intros H.
    destruct (action_allowed amo request _) as [[|]|e]; simpl;
      [done| |done].
    by rewrite H.
Qed.

Lemma check_addon_ownership_flags_widen_witness :
  check_addon_ownership Sample.amo {| user := Sample.developer |}
    {| is_deleted := false; status := 4;
       addonuser_set := [ {| addonuser_user := 2; role := 5 |} ] |}
    true true false = Ok true.
Proof.
  apply (check_addon_ownership_flags_widen Sample.amo
           {| user := Sample.developer |}
           {| is_deleted := false; status := 4;
              addonuser_set := [ {| addonuser_user := 2; role := 5 |} ] |}
           true true false).
  reflexivity.
Defined.

(** With [admin=True] the groups are scanned first, so a malformed rule
    makes the call raise even for the owner; with [admin=False] it does
    not. *)
Example check_addon_ownership_admin_raises :
  let addon := {| is_deleted := false; status := 4;
                  addonuser_set := [ {| addonuser_user := 4; role := 5 |} ] |} in
  check_addon_ownership Sample.amo {| user := Sample.misconfigured |} addon
    false false false = Ok true
  ∧ check_addon_ownership Sample.amo {| user := Sample.misconfigured |} addon
      false true false = Raise (ValueError_not_enough_values 2 1).
Proof. split; reflexivity. Qed.

(** X14: with [admin=False] the permissions are never consulted: the call
    does not raise, and its result depends on the user only through
    [is_authenticated] and [id], not through the groups. *)
Theorem check_addon_ownership_not_admin amo u u' addon
    (dev ignore_disabled : bool) :
  is_authenticated u = is_authenticated u' →
  id u = id u' →
  is_raise (check_addon_ownership amo {| user := u |} addon dev false
              ignore_disabled) = false
  ∧ check_addon_ownership amo {| user := u |} addon dev false ignore_disabled
    = check_addon_ownership amo {| user := u' |} addon dev false
        ignore_disabled.
Proof.
  intros Hauth Hid. unfold check_addon_ownership, addonuser_exists. simpl.
  rewrite <- Hauth, <- Hid.
  destruct (is_authenticated u); [|done]. simpl.
  destruct (is_deleted addon); [done|].
  by destruct (_ && _).
Qed.

Lemma check_addon_ownership_not_admin_witness :
  is_raise (check_addon_ownership Sample.amo
              {| user := Sample.misconfigured |} Sample.disabled_addon
              true false true) = false
  ∧ check_addon_ownership Sample.amo {| user := Sample.misconfigured |}
      Sample.disabled_addon true false true
    = check_addon_ownership Sample.amo
        {| user := {| is_authenticated := true; id := 4;
                      groups_list := [] |} |}
        Sample.disabled_addon true false true.
Proof.
  apply (check_addon_ownership_not_admin Sample.amo Sample.misconfigured
           {| is_authenticated := true; id := 4; groups_list := [] |}
           Sample.disabled_addon true true); reflexivity.
Defined.

(** X18: with [require_owner=True] the answer is [True] exactly for the
    author of the collection (no group is scanned for them) and for a
    curation admin on a collection of the task user; and whoever passes with
    [require_owner=True] passes with [require_owner=False]. *)
Theorem check_collection_ownership_strict amo settings request collection :
  (check_collection_ownership amo settings request collection true = Ok true
   ↔ is_authenticated (user request) = true
     ∧ (id (user request) = author_id collection
        ∨ (author_id collection = TASK_USER_ID settings
           ∧ action_allowed_user amo (user request) (ADMIN_CURATION amo)
             = Ok true)))
  ∧ (check_collection_ownership amo settings request collection true
     = Ok true →
     check_collection_ownership amo settings request collection false
     = Ok true).
Proof.
  unfold check_collection_ownership.
  destruct (is_authenticated (user request)); simpl negb; cbv iota.
  2:{ split; [|done]. split; [done|]. by intros [? _]. }
  destruct (Z.eqb_spec (id (user request)) (author_id collection)) as [Hid|Hid].
  { split; [|done]. split; [auto|done]. }
  destruct (Z.eqb_spec (author_id collection) (TASK_USER_ID settings))
    as [Ht|Ht]; simpl.
  - destruct (action_allowed_user amo (user request) (ADMIN_CURATION amo))
      as [[|]|e]; simpl.
    + split; [|done]. split; [auto|done].
    + split; [|done]. split; [done|]. intros [_ [?|[_ ?]]]; done.
    + split; [|done]. split; [done|]. intros [_ [?|[_ ?]]]; done.
  - split; [|done]. split; [done|]. intros [_ [?|[? _]]]; done.
Qed.

Lemma check_collection_ownership_strict_witness :
  check_collection_ownership Sample.amo Sample.settings
    {| user := Sample.misconfigured |} {| author_id := 4; pk := 77 |} false
  = Ok true.
Proof.
  destruct (check_collection_ownership_strict Sample.amo Sample.settings
              {| user := Sample.misconfigured |}
              {| author_id := 4; pk := 77 |}) as [Hiff Hlax].
  apply Hlax. apply Hiff. split; [reflexivity|]. left. reflexivity.
Defined.

(** ** Reserved guids *)

Lemma startswith_same_length s p :
  Py.startswith s p && Nat.eqb (str_len s) (str_len p) = true ↔ s = p.
Proof.
  revert p. induction s as [|d s IH]; intros [|c p]; simpl; try done.
  rewrite <- andb_assoc, andb_true_iff, IH, ascii_eqb_eq. split.
  - by intros [-> ->].
  - by intros [= -> ->].
Qed.

(** [endswith] is the suffix test. *)
Lemma endswith_spec s x : Py.endswith s x = true ↔ ∃ p, s = p +:+ x.
Proof.
  induction s as [|d s IH].
  - rewrite endswith_empty. split.
    + intros ->. by exists "".
    + intros [p Hp]. destruct p; [done|discriminate Hp].
  - change (Py.endswith (String d s) x)
      with (Py.startswith (String d s) x
            && Nat.eqb (str_len (String d s)) (str_len x)
            || Py.endswith s x).
    rewrite orb_true_iff, startswith_same_length, IH. split.
    + intros [<-|[p ->]]; [by exists ""|by exists (String d p)].
    + intros [[|c p] Hp]; simpl in Hp; [by left|].
      right. injection Hp as -> ->. by exists p.
Qed.

Lemma endswith_any_spec s suffixes :
  Py.endswith_any s suffixes = true ↔
  ∃ p x, x ∈ suffixes ∧ s = p +:+ x.
Proof.
  unfold Py.endswith_any. rewrite existsb_exists. split.
  - intros (x & Hin & Hend). apply endswith_spec in Hend as [p ->].
    exists p, x. split; [by apply list_elem_of_In|done].
  - intros (p & x & Hin & ->). exists x.
    split; [by apply list_elem_of_In|]. apply endswith_spec. by exists p.
Qed.

(** X15: a guid that is an ASCII string is gated by its lower-cased form.
    If that ends with one of the reserved suffixes the answer is the one of
    [action_allowed_user] for [SYSTEM_ADDON_SUBMIT]; otherwise the answer is
    [True] and the user is not looked at. *)
Theorem reserved_guid_gate amo u (parsed_addon_data : gmap string pyval) guid :
  parsed_addon_data !! "guid" = Some (PyStr guid) →
  isascii guid = true →
  ((∃ p x, x ∈ RESERVED_ADDON_GUIDS amo ∧ Py.lower guid = p +:+ x) →
   reserved_guid_addon_submission_allowed amo u parsed_addon_data
   = action_allowed_user amo u (SYSTEM_ADDON_SUBMIT amo))
  ∧ (¬ (∃ p x, x ∈ RESERVED_ADDON_GUIDS amo ∧ Py.lower guid = p +:+ x) →
     reserved_guid_addon_submission_allowed amo u parsed_addon_data
     = Ok true).
Proof.
  intros Hget _. unfold reserved_guid_addon_submission_allowed, dict_get.
  rewrite Hget. simpl default.
  assert ((if truthy (PyStr guid) then PyStr guid else PyStr "")
          = PyStr guid) as ->.
  { simpl. destruct (str_eqb guid "") eqn:He; [|done].
    apply str_eqb_eq in He. by subst. }
  simpl. rewrite <- endswith_any_spec.
  destruct (Py.endswith_any (Py.lower guid) (RESERVED_ADDON_GUIDS amo));
    simpl; split; done.
Qed.

Lemma reserved_guid_gate_witness :
  reserved_guid_addon_submission_allowed Sample.amo Sample.developer
    {[ "guid" := PyStr "Tracker@MOZILLA.org" ]} = Ok false.
Proof.
  destruct (reserved_guid_gate Sample.amo Sample.developer
              {[ "guid" := PyStr "Tracker@MOZILLA.org" ]}
              "Tracker@MOZILLA.org") as [Hgated _];
    [reflexivity|reflexivity|].
  rewrite Hgated; [reflexivity|].
  exists "tracker", "@mozilla.org". split; [elem_of_here|reflexivity].
Defined.

(** X16: a guid that is present but is not a string raises
    [AttributeError] when it is truthy; when it is falsy ([None], [False],
    [0]) it is replaced by [''] and the call behaves as if the key were
    absent. *)
Theorem reserved_guid_not_a_string amo u (parsed_addon_data : gmap string pyval)
    v :
  parsed_addon_data !! "guid" = Some v →
  (∀ s, v ≠ PyStr s) →
  (truthy v = true →
   reserved_guid_addon_submission_allowed amo u parsed_addon_data
   = Raise (AttributeError "lower"))
  ∧ (truthy v = false →
     reserved_guid_addon_submission_allowed amo u parsed_addon_data
     = reserved_guid_addon_submission_allowed amo u
         (delete "guid" parsed_addon_data)).
Proof.
  intros Hget Hstr. unfold reserved_guid_addon_submission_allowed, dict_get.
  rewrite Hget, lookup_delete_eq. simpl default. split; intros Hv; rewrite Hv.
  - destruct v; try done. by destruct (Hstr s).
  - done.
Qed.

Lemma reserved_guid_not_a_string_witness :
  reserved_guid_addon_submission_allowed Sample.amo Sample.developer
    {[ "guid" := PyInt 7 ]} = Raise (AttributeError "lower")
  ∧ reserved_guid_addon_submission_allowed Sample.amo Sample.developer
      {[ "guid" := PyInt 0 ]}
    = reserved_guid_addon_submission_allowed Sample.amo Sample.developer
        (delete "guid" {[ "guid" := PyInt 0 ]}).
Proof.
  split.
  - destruct (reserved_guid_not_a_string Sample.amo Sample.developer
                {[ "guid" := PyInt 7 ]} (PyInt 7)) as [Hraise _];
      [reflexivity|discriminate|].
    apply Hraise. reflexivity.
  - destruct (reserved_guid_not_a_string Sample.amo Sample.developer
                {[ "guid" := PyInt 0 ]} (PyInt 0)) as [_ Hfalsy];
      [reflexivity|discriminate|].
    apply Hfalsy. reflexivity.
Defined.

(** ** The universal grant *)

(** X17: a principal holding the rule ['*:*'] holds every permission of the
    enumeration, provided the rule sets of the groups before that group and
    the rules before it in its own group are well formed; what comes after
    the rule is never looked at. *)
Theorem action_allowed_user_universal_grant amo u permission
    groups_before group groups_after rules_before rules_after :
  is_authenticated u = true →
  permission ∈ PERMISSIONS_LIST amo →
  groups_list u = groups_before ++ group :: groups_after →
  Forall (λ g, well_formed_rules (rules g)) groups_before →
  Py.split "," (rules group) = rules_before ++ "*:*" :: rules_after →
  Forall (λ rule, Py.count ":" rule = 1%nat) rules_before →
  action_allowed_user amo u permission = Ok true.
Proof.
  intros Hauth Hin Hgroups Hwf Hsplit Hrules.
  rewrite action_allowed_user_scan, Hgroups, any_app by done.
  assert (is_raise (Py.any (λ g, match_rules (rules g) (app permission)
                                   (action permission)) groups_before)
          = false) as Htotal.
  { apply any_total. intros g Hg. apply match_rules_total.
    rewrite Forall_forall in Hwf. auto. }
  destruct (Py.any _ groups_before) as [[|]|e]; simpl in *; try done.
  rewrite (match_rules_grant_after_well_formed (rules group) _ _
             rules_before "*" "*" rules_after); try done.
  split; by left.
Qed.

Lemma action_allowed_user_universal_grant_witness :
  action_allowed_user Sample.amo
    {| is_authenticated := true; id := 11;
       groups_list := [ {| rules := "Stats:View" |};
                        {| rules := "Reviews:Edit,*:*,Admin" |};
                        {| rules := "a:b:c" |} ] |}
    (ADMIN_CURATION Sample.amo) = Ok true.
Proof.
  apply (action_allowed_user_universal_grant Sample.amo
           {| is_authenticated := true; id := 11;
              groups_list := [ {| rules := "Stats:View" |};
                               {| rules := "Reviews:Edit,*:*,Admin" |};
                               {| rules := "a:b:c" |} ] |}
           (ADMIN_CURATION Sample.amo)
           [ {| rules := "Stats:View" |} ]
           {| rules := "Reviews:Edit,*:*,Admin" |}
           [ {| rules := "a:b:c" |} ]
           ["Reviews:Edit"] ["Admin"]).
  - reflexivity.
  - apply (bool_decide_unpack _). by vm_compute.
  - reflexivity.
  - repeat constructor.
  - reflexivity.
  - repeat constructor.
Defined.

(** ** Ownership and submission checks on well-formed principals *)

Lemma and_then_total (a : bool) (r : result bool) :
  is_raise r = false → is_raise (and_then a r) = false.
Proof. by destruct a. Qed.

Lemma or_else_bool_total (a : bool) (r : result bool) :
  is_raise r = false → is_raise (or_else a r) = false.
Proof. by destruct a. Qed.

(** X19: for a principal whose groups all have well-formed rule sets, and
    with the six permissions these checks use in the enumeration, neither
    ownership check raises, and no submission predicate raises either,
    provided for the guid predicate that a truthy [guid] is a string. *)
Theorem ownership_and_submission_return amo settings request collection addon
    (parsed_addon_data : gmap string pyval)
    (require_owner dev admin ignore_disabled : bool) :
  well_formed_user (user request) →
  Forall (λ p, p ∈ PERMISSIONS_LIST amo)
    [ADDONS_EDIT amo; ADMIN_CURATION amo; COLLECTIONS_CONTRIBUTE amo;
     EXPERIMENTS_SUBMIT amo; LANGPACK_SUBMIT amo; SYSTEM_ADDON_SUBMIT amo] →
  is_raise (check_collection_ownership amo settings request collection
              require_owner) = false
  ∧ is_raise (check_addon_ownership amo request addon dev admin
                ignore_disabled) = false
  ∧ is_raise (experiments_submission_allowed amo (user request)
                parsed_addon_data) = false
  ∧ is_raise (langpack_submission_allowed amo (user request)
                parsed_addon_data) = false
  ∧ is_raise (mozilla_signed_extension_submission_allowed amo (user request)
                parsed_addon_data) = false
  ∧ ((∀ v, parsed_addon_data !! "guid" = Some v → truthy v = true →
           ∃ s, v = PyStr s) →
     is_raise (reserved_guid_addon_submission_allowed amo (user request)
                 parsed_addon_data) = false).
Proof.
  intros Hwf Hin. rewrite Forall_forall in Hin.
  assert (∀ p, p ∈ [ADDONS_EDIT amo; ADMIN_CURATION amo;
                    COLLECTIONS_CONTRIBUTE amo; EXPERIMENTS_SUBMIT amo;
                    LANGPACK_SUBMIT amo; SYSTEM_ADDON_SUBMIT amo] →
          is_raise (action_allowed_user amo (user request) p) = false)
    as Hok.
  { intros p Hp. apply action_allowed_user_total; auto. }
  repeat split.
  - unfold check_collection_ownership.
    destruct (negb _); [done|]. destruct (_ =? _); [done|].
    pose proof (and_then_total
                  (author_id collection =? TASK_USER_ID settings)
                  (action_allowed_user amo (user request)
                     (ADMIN_CURATION amo))
                  (Hok (ADMIN_CURATION amo) ltac:(elem_of_here))) as Hcur.
    destruct (and_then _ _) as [[|]|e]; simpl in *; try done.
    destruct (negb require_owner); [|done].
    apply and_then_total, Hok. elem_of_here.
  - unfold check_addon_ownership, action_allowed.
    destruct (negb _); [done|]. destruct (is_deleted addon); [done|].
    pose proof (and_then_total admin
                  (action_allowed_user amo (user request) (ADDONS_EDIT amo))
                  (Hok (ADDONS_EDIT amo) ltac:(elem_of_here))) as Hed.
    destruct (and_then _ _) as [[|]|e]; simpl in *; try done.
    by destruct (_ && _).
  - apply or_else_bool_total, Hok. elem_of_here.
  - apply or_else_bool_total, Hok. elem_of_here.
  - apply or_else_bool_total, Hok. elem_of_here.
  - intros Hguid. unfold reserved_guid_addon_submission_allowed, dict_get.
    destruct (parsed_addon_data !! "guid") as [v|] eqn:Hget; simpl default.
    + destruct (truthy v) eqn:Hv.
      * destruct (Hguid v eq_refl Hv) as [g ->]. simpl.
        apply or_else_bool_total, Hok. elem_of_here.
      * simpl. apply or_else_bool_total, Hok. elem_of_here.
    + simpl. apply or_else_bool_total, Hok. elem_of_here.
Qed.

Lemma developer_well_formed : well_formed_user Sample.developer.
Proof. repeat constructor. Qed.

Lemma sample_permissions_enumerated :
  Forall (λ p, p ∈ PERMISSIONS_LIST Sample.amo)
    [ADDONS_EDIT Sample.amo; ADMIN_CURATION Sample.amo;
     COLLECTIONS_CONTRIBUTE Sample.amo; EXPERIMENTS_SUBMIT Sample.amo;
     LANGPACK_SUBMIT Sample.amo; SYSTEM_ADDON_SUBMIT Sample.amo].
Proof. repeat constructor; elem_of_here. Qed.

Lemma ownership_and_submission_return_witness :
  is_raise (check_addon_ownership Sample.amo {| user := Sample.developer |}
              Sample.disabled_addon true true false) = false
  ∧ is_raise (reserved_guid_addon_submission_allowed Sample.amo
                Sample.developer {[ "guid" := PyStr "x@mozilla.org" ]})
    = false.
Proof.
  destruct (ownership_and_submission_return Sample.amo Sample.settings
              {| user := Sample.developer |} Sample.featured_themes
              Sample.disabled_addon {[ "guid" := PyStr "x@mozilla.org" ]}
              false true true false developer_well_formed
              sample_permissions_enumerated)
    as (_ & Haddon & _ & _ & _ & Hguid).
  split; [exact Haddon|]. apply Hguid.
  intros v Hv _. apply lookup_singleton_Some in Hv as [_ <-]. by eexists.
Defined.
